(** * plasma: the interactive shell (lib/interactive.py)

    A shallow embedding of the command shell of the plasma/reverse
    binary-analysis tool: the tokenizer it calls, the command registry,
    the completion engine, the dispatcher, the symbol command and the
    save-before-exit loop, followed by the properties of the shell that
    the specification states.

    Python [str] values are modelled as [string] (sequences of 8-bit
    characters), Python integers as [Z] or [nat], the name-to-address
    dictionary as an insertion-ordered association list (the completion
    engine iterates over it), the address-to-name dictionary and the
    command table as [gmap]s (they are only looked up and updated). *)

From Stdlib Require Import String Ascii List ZArith Lia Bool DecimalString.
From stdpp Require Import base option gmap strings list.
Import ListNotations.

Local Open Scope string_scope.
Local Open Scope list_scope.
Local Open Scope Z_scope.
Local Open Scope nat_scope.

(** ** Python values: exceptions and results *)

(** The exceptions that the modelled code can raise. [SystemExit] carries
    the exit status given to [sys.exit]. *)
Inductive exn : Type :=
  | ValueError
  | IndexError
  | KeyError
  | TypeError
  | AttributeError
  | OSError
  | SystemExit (status : Z).

(** A computation that returns a value or raises. *)
Inductive pyres (A : Type) : Type :=
  | Ok (a : A)
  | Raise (e : exn).
Arguments Ok {A} a.
Arguments Raise {A} e.

Definition pybind {A B} (r : pyres A) (k : A -> pyres B) : pyres B :=
  match r with
  | Ok a => k a
  | Raise e => Raise e
  end.

Notation "'let?' x ':=' r 'in' k" := (pybind r (fun x => k))
  (at level 10, x name, r at level 100, k at level 200).

(** ** Python strings *)

Module PyStr.

(** [s.startswith(p)] *)
Fixpoint startswith (s p : string) : bool :=
  match p, s with
  | EmptyString, _ => true
  | String _ _, EmptyString => false
  | String a p', String b s' => if Ascii.eqb a b then startswith s' p' else false
  end.

(** [s[n:]] *)
Fixpoint drop (n : nat) (s : string) : string :=
  match n, s with
  | O, _ => s
  | S _, EmptyString => EmptyString
  | S n', String _ s' => drop n' s'
  end.

(** [s[:-1]] *)
Fixpoint drop_last (s : string) : string :=
  match s with
  | EmptyString => EmptyString
  | String _ EmptyString => EmptyString
  | String c s' => String c (drop_last s')
  end.

(** [s.endswith(p)] for a non-empty one-character [p]. *)
Fixpoint ends_with_char (s : string) (c : ascii) : bool :=
  match s with
  | EmptyString => false
  | String a EmptyString => Ascii.eqb a c
  | String _ s' => ends_with_char s' c
  end.

(** [s.replace] of every space by a backslash and a space *)
Fixpoint backslash_spaces (s : string) : string :=
  match s with
  | EmptyString => EmptyString
  | String c s' =>
      if Ascii.eqb c " " then String "\" (String " " (backslash_spaces s'))
      else String c (backslash_spaces s')
  end.

(** [s.rstrip] of slashes *)
Fixpoint rstrip_slash (s : string) : string :=
  match s with
  | EmptyString => EmptyString
  | String c s' =>
      match rstrip_slash s' with
      | EmptyString => if Ascii.eqb c "/" then EmptyString else String c EmptyString
      | t => String c t
      end
  end.

(** [s] consists of slashes only. *)
Fixpoint all_slashes (s : string) : bool :=
  match s with
  | EmptyString => true
  | String c s' => Ascii.eqb c "/" && all_slashes s'
  end.

(** The [%d] conversion of a non-negative [n]. *)
Definition of_nat (n : nat) : string :=
  NilZero.string_of_uint (Nat.to_uint n).

Definition nonempty (s : string) : bool :=
  match s with EmptyString => false | _ => true end.

(** [p] is a leading part of [w]. *)
Definition is_prefix (p w : string) : Prop := exists t, w = p +:+ t.

End PyStr.

(** ** The tokenizer: [shlex.split] of the Python standard library

    [shlex.split(line)] builds a lexer in POSIX mode with
    [whitespace_split] on and no comment characters, and collects the
    tokens that [read_token] yields until it yields none. The model
    follows the state machine of [shlex.read_token]: the blank state,
    the in-word state (written a in the library), a quote character,
    the escape character, and [None] once the input is exhausted. *)

Module Shlex.

Inductive lexstate : Type :=
  | S_none                (* state is None: past the end of the input *)
  | S_space               (* the blank state, between tokens *)
  | S_word                (* the state a, inside a word *)
  | S_quote (q : ascii)   (* inside quotes opened by q *)
  | S_escape (e : ascii). (* just after the escape character e *)

(** The local [escapedstate]: the state to resume after an escape. *)
Inductive escstate : Type :=
  | E_space
  | E_word
  | E_quote (q : ascii).

Definition resume (e : escstate) : lexstate :=
  match e with
  | E_space => S_space
  | E_word => S_word
  | E_quote q => S_quote q
  end.

(** [self.whitespace]: space, tab, carriage return, line feed *)
Definition is_whitespace (c : ascii) : bool :=
  Ascii.eqb c " " || Ascii.eqb c "009" || Ascii.eqb c "013" || Ascii.eqb c "010".

(** [self.quotes]: the single and the double quote *)
Definition is_quote (c : ascii) : bool :=
  Ascii.eqb c "'" || Ascii.eqb c "034".

(** [self.escape]: the backslash *)
Definition is_escape (c : ascii) : bool := Ascii.eqb c "\".

(** [self.escapedquotes]: the double quote *)
Definition is_escapedquote (c : ascii) : bool := Ascii.eqb c "034".

Definition push (token : string) (c : ascii) : string :=
  token +:+ String c EmptyString.

(** The end of [read_token]: the token read, or [None] for "no token". *)
Definition emit (quoted : bool) (token : string) : option string :=
  if negb quoted && negb (PyStr.nonempty token) then None else Some token.

(** [list(lex)]: [read_token] called until it returns [None]. The calls
    are fused into one pass over the input; [quoted], [token] and
    [escapedstate] are the locals of the running call, [acc] the tokens
    of the calls that have returned. *)
Fixpoint tokens (input : string) (state : lexstate) (esc : escstate)
    (quoted : bool) (token : string) (acc : list string) : pyres (list string) :=
  match input with
  | EmptyString =>
      match state with
      | S_none => Ok acc
      | S_space | S_word =>
          (* end of file: the pending token, then nothing more *)
          match emit quoted token with
          | None => Ok acc
          | Some t => Ok (acc ++ [t])
          end
      | S_quote _ => Raise ValueError   (* No closing quotation *)
      | S_escape _ => Raise ValueError  (* No escaped character *)
      end
  | String c rest =>
      match state with
      | S_none => Ok acc
      | S_space =>
          if is_whitespace c then
            if PyStr.nonempty token || quoted then
              match emit quoted token with
              | None => Ok acc
              | Some t => tokens rest S_space E_space false EmptyString (acc ++ [t])
              end
            else tokens rest S_space esc quoted token acc
          else if is_escape c then tokens rest (S_escape c) E_word quoted token acc
          else if is_quote c then tokens rest (S_quote c) esc quoted token acc
          else tokens rest S_word esc quoted (String c EmptyString) acc
      | S_quote q =>
          if Ascii.eqb c q then tokens rest S_word esc true token acc
          else if is_escape c && is_escapedquote q then
            tokens rest (S_escape c) (E_quote q) true token acc
          else tokens rest (S_quote q) esc true (push token c) acc
      | S_escape e =>
          let token' :=
            match esc with
            | E_quote q =>
                if negb (Ascii.eqb c e) && negb (Ascii.eqb c q) then push token e
                else token
            | _ => token
            end in
          tokens rest (resume esc) esc quoted (push token' c) acc
      | S_word =>
          if is_whitespace c then
            if PyStr.nonempty token || quoted then
              match emit quoted token with
              | None => Ok acc
              | Some t => tokens rest S_space E_space false EmptyString (acc ++ [t])
              end
            else tokens rest S_space esc quoted token acc
          else if is_quote c then tokens rest (S_quote c) esc quoted token acc
          else if is_escape c then tokens rest (S_escape c) E_word quoted token acc
          else tokens rest S_word esc quoted (push token c) acc
      end
  end.

(** [shlex.split(line)] *)
Definition split (line : string) : pyres (list string) :=
  tokens line S_space E_space false EmptyString [].

End Shlex.

(** ** Python integers from text: [int(s, 16)]

    The conversion skips surrounding whitespace, accepts a sign, the
    prefix 0x or 0X, and hexadecimal digits that single underscores may
    separate; anything else is a [ValueError] (here [None]). *)

Module PyInt.

(** The whitespace that [int] skips around the number, among the
    characters up to 255: tab to carriage return (9 to 13), the space,
    next line (133) and the no-break space (160). The separators 28 to 31
    are not skipped. *)
Definition is_space (c : ascii) : bool :=
  let n := nat_of_ascii c in
  ((9 <=? n) && (n <=? 13)) || (n =? 32) || (n =? 133) || (n =? 160).

(** The value of a digit in bases up to 36. *)
Definition digit_value (c : ascii) : option Z :=
  let n := nat_of_ascii c in
  if (48 <=? n) && (n <=? 57) then Some (Z.of_nat (n - 48))
  else if (97 <=? n) && (n <=? 122) then Some (Z.of_nat (n - 87))
  else if (65 <=? n) && (n <=? 90) then Some (Z.of_nat (n - 55))
  else None.

Fixpoint lstrip (s : string) : string :=
  match s with
  | EmptyString => EmptyString
  | String c s' => if is_space c then lstrip s' else s
  end.

Fixpoint all_space (s : string) : bool :=
  match s with
  | EmptyString => true
  | String c s' => is_space c && all_space s'
  end.

(** The scan over digits and underscores: the value read, the number
    of digits, and the text left. Two underscores in a row and an
    underscore at the end of the digits are refused. *)
Fixpoint scan (s : string) (prev_underscore : bool) (digits : nat) (acc : Z)
    : option (Z * nat * string) :=
  let stop (rest : string) :=
    if prev_underscore then None else Some (acc, digits, rest) in
  match s with
  | EmptyString => stop EmptyString
  | String c s' =>
      if Ascii.eqb c "_" then
        if prev_underscore then None else scan s' true digits acc
      else
        match digit_value c with
        | Some v =>
            if (v <? 16)%Z then scan s' false (S digits) (acc * 16 + v)%Z
            else stop s
        | None => stop s
        end
  end.

Definition int16 (s : string) : option Z :=
  let s := lstrip s in
  let '(negative, s) :=
    match s with
    | String "+" s' => (false, s')
    | String "-" s' => (true, s')
    | _ => (false, s)
    end in
  let s :=
    match s with
    | String "0" (String x s') =>
        if Ascii.eqb x "x" || Ascii.eqb x "X" then
          match s' with
          | String "_" s'' => s''     (* one underscore allowed here *)
          | _ => s'
          end
        else s
    | _ => s
    end in
  match s with
  | String "_" _ => None              (* may not start with underscores *)
  | _ =>
      match scan s false 0 0%Z with
      | None => None
      | Some (v, digits, rest) =>
          if (digits =? 0) || negb (all_space rest) then None
          else Some (if negative then (- v)%Z else v)
      end
  end.

End PyInt.

(** ** Python dictionaries that are iterated: insertion-ordered *)

Module PyDict.

Section dict.
Context {K V : Type} `{EqDecision K}.

(** [d[k]] and [k in d] *)
Fixpoint get (d : list (K * V)) (k : K) : option V :=
  match d with
  | [] => None
  | (k', v) :: d' => if decide (k' = k) then Some v else get d' k
  end.

(** [d[k] = v]: a present key keeps its place, a new one goes last. *)
Fixpoint set (d : list (K * V)) (k : K) (v : V) : list (K * V) :=
  match d with
  | [] => [(k, v)]
  | (k', v') :: d' =>
      if decide (k' = k) then (k, v) :: d' else (k', v') :: set d' k v
  end.

(** Iteration over a dictionary yields its keys. *)
Definition keys (d : list (K * V)) : list K := map fst d.

End dict.

End PyDict.

(** ** [os.path] on POSIX *)

Module OsPath.

(** The path cut after its last slash: [(p[:i], p[i:])] with
    [i = p.rfind("/") + 1]. *)
Fixpoint cut (p : string) : string * string :=
  match p with
  | EmptyString => (EmptyString, EmptyString)
  | String c p' =>
      let '(head, tail) := cut p' in
      if PyStr.nonempty head then (String c head, tail)
      else if Ascii.eqb c "/" then (String c EmptyString, tail)
      else (EmptyString, String c tail)
  end.

Definition basename (p : string) : string := snd (cut p).

Definition dirname (p : string) : string :=
  let head := fst (cut p) in
  if PyStr.nonempty head && negb (PyStr.all_slashes head)
  then PyStr.rstrip_slash head else head.

Definition join (a b : string) : string :=
  if PyStr.startswith b "/" then b
  else if negb (PyStr.nonempty a) || PyStr.ends_with_char a "/" then a +:+ b
  else a +:+ "/" +:+ b.

End OsPath.

(** ** The session *)

(** The loaded binary, as far as the shell touches it: the symbol table
    [symbols] (name to address) and its reverse [reverse_symbols]. *)
Record Binary : Type := {
  symbols : list (string * Z);
  reverse_symbols : gmap Z string;
}.

Record Disassembler : Type := { binary : Binary }.

(** The context object [ctx] shared with the loader and the
    disassembler. [dis] is [None] until a binary has been loaded. *)
Record Context : Type := {
  filename : option string;
  db_path : option string;
  dis : option Disassembler;
  sectionsname : bool;
  comments : bool;
}.

(** What [save] writes: the JSON record of the symbols and the history. *)
Record Database : Type := {
  db_symbols : list (string * Z);
  db_history : list string;
}.

Inductive file : Type :=
  | Empty_file
  | Json_file (db : Database).

(** An [Interactive] object together with the files it has written.
    [history] is [self.rl.history]. *)
Record Interactive : Type := {
  ctx : Context;
  database_modified : bool;
  history : list string;
  disk : gmap string file;
}.

Definition set_ctx (c : Context) (st : Interactive) : Interactive :=
  {| ctx := c; database_modified := database_modified st;
     history := history st; disk := disk st |}.

Definition set_database_modified (b : bool) (st : Interactive) : Interactive :=
  {| ctx := ctx st; database_modified := b;
     history := history st; disk := disk st |}.

Definition set_history (h : list string) (st : Interactive) : Interactive :=
  {| ctx := ctx st; database_modified := database_modified st;
     history := h; disk := disk st |}.

Definition set_disk (d : gmap string file) (st : Interactive) : Interactive :=
  {| ctx := ctx st; database_modified := database_modified st;
     history := history st; disk := d |}.

Definition set_dis (d : option Disassembler) (c : Context) : Context :=
  {| filename := filename c; db_path := db_path c; dis := d;
     sectionsname := sectionsname c; comments := comments c |}.

Definition set_sectionsname (b : bool) (c : Context) : Context :=
  {| filename := filename c; db_path := db_path c; dis := dis c;
     sectionsname := b; comments := comments c |}.

Definition set_comments (b : bool) (c : Context) : Context :=
  {| filename := filename c; db_path := db_path c; dis := dis c;
     sectionsname := sectionsname c; comments := b |}.

(** What the shell writes to the terminal. *)
Inductive output : Type :=
  | Out_print (s : string)     (* print(s) *)
  | Out_error (s : string)     (* lib.utils.error(s) *)
  | Out_symbols (with_sections : bool) (filter : option string).
                               (* dis.print_symbols(sectionsname, filter) *)

(** ** The monad of shell code: session state, terminal log, exceptions *)

(** The outcome of running a piece of shell code: the value returned or
    the exception raised, what was printed, and the session at that
    point (the mutations made before an exception stay). *)
Record run (A : Type) : Type := Run {
  value : pyres A;
  printed : list output;
  final : Interactive;
}.
Arguments Run {A} value printed final.
Arguments value {A} r.
Arguments printed {A} r.
Arguments final {A} r.

Definition M (A : Type) : Type := Interactive -> run A.

Definition ret {A} (a : A) : M A := fun st => Run (Ok a) [] st.

Definition raise {A} (e : exn) : M A := fun st => Run (Raise e) [] st.

Definition lift {A} (r : pyres A) : M A := fun st => Run r [] st.

Definition bind {A B} (m : M A) (k : A -> M B) : M B := fun st =>
  let r := m st in
  match value r with
  | Ok a => let r' := k a (final r) in
            Run (value r') (printed r ++ printed r') (final r')
  | Raise e => Run (Raise e) (printed r) (final r)
  end.

Notation "'let*' x ':=' m 'in' k" := (bind m (fun x => k))
  (at level 10, x name, m at level 100, k at level 200).

Definition get_state : M Interactive := fun st => Run (Ok st) [] st.

Definition modify (f : Interactive -> Interactive) : M unit :=
  fun st => Run (Ok tt) [] (f st).

Definition say (o : output) : M unit := fun st => Run (Ok tt) [o] st.

Definition print (s : string) : M unit := say (Out_print s).

Definition error (s : string) : M unit := say (Out_error s).

(** [try: body except: handler]: a bare [except] catches every exception,
    and the handler runs in the session as the body left it. *)
Definition try_except {A} (body : M A) (handler : exn -> M A) : M A := fun st =>
  let r := body st in
  match value r with
  | Ok _ => r
  | Raise e => let r' := handler e (final r) in
               Run (value r') (printed r ++ printed r') (final r')
  end.

(** [l[i]] on a list and [s[i]] on a string. *)
Definition item {A} (l : list A) (i : nat) : pyres A :=
  match nth_error l i with
  | Some a => Ok a
  | None => Raise IndexError
  end.

Definition char_at (s : string) (i : nat) : pyres ascii :=
  match String.get i s with
  | Some c => Ok c
  | None => Raise IndexError
  end.

(** ** The command registry *)

(** The executors and completers that commands refer to (the bound
    methods [self.__exec_...] and [self.__complete_...]). *)
Inductive executor : Type :=
  | exec_help | exec_save | exec_load
  | exec_lrawx86 | exec_lrawx64 | exec_lrawarm | exec_lrawmips | exec_lrawmips64
  | exec_x | exec_data | exec_dump | exec_sym | exec_calls | exec_exit
  | exec_sections | exec_info
  | exec_display_print_section | exec_display_print_comments.

Inductive completer : Type :=
  | complete_load
  | complete_x.

Record Command : Type := {
  max_args : nat;
  callback_exec : option executor;
  callback_complete : option completer;
  desc : list string;
}.

Definition MAX_PRINT_COMPLETE : nat := 80.

Definition COMMANDS_ALPHA : list string :=
  [ "calls"; "da"; "db"; "dd"; "dw"; "dq"; "dump"; "exit"; "help"; "info";
    "load"; "lrawarm"; "lrawmips"; "lrawmips64"; "lrawx86"; "lrawx64";
    "save"; "sections"; "sym"; "x";
    "display.print_section"; "display.print_comments" ].

Definition command_table : list (string * Command) :=
  [ ("help", Build_Command 0 (Some exec_help) None
       [EmptyString; "Display this help"]);
    ("save", Build_Command 0 (Some exec_save) None
       [EmptyString; "Save the database (only symbols and history currently)."]);
    ("load", Build_Command 1 (Some exec_load) (Some complete_load)
       ["filename"; "Load a new binary file."]);
    ("lrawx86", Build_Command 1 (Some exec_lrawx86) (Some complete_load)
       ["filename"; "Load a x86 raw file."]);
    ("lrawx64", Build_Command 1 (Some exec_lrawx64) (Some complete_load)
       ["filename"; "Load a x64 raw file."]);
    ("lrawarm", Build_Command 1 (Some exec_lrawarm) (Some complete_load)
       ["filename"; "Load a ARM raw file."]);
    ("lrawmips", Build_Command 1 (Some exec_lrawmips) (Some complete_load)
       ["filename"; "Load a MIPS raw file."]);
    ("lrawmips64", Build_Command 1 (Some exec_lrawmips64) (Some complete_load)
       ["filename"; "Load a MIPS64 raw file."]);
    ("x", Build_Command 1 (Some exec_x) (Some complete_x)
       ["[SYMBOL|0xXXXX|EP]"; "Decompile. By default it will be main."]);
    ("da", Build_Command 2 (Some exec_data) (Some complete_x)
       ["SYMBOL|0xXXXX|EP [NB_LINES]";
        "Print data in ascii, it stops when the end of the section is found"]);
    ("db", Build_Command 2 (Some exec_data) (Some complete_x)
       ["SYMBOL|0xXXXX|EP [NB_LINES]";
        "Print data in bytes, it stops when the end of the section is found"]);
    ("dd", Build_Command 2 (Some exec_data) (Some complete_x)
       ["SYMBOL|0xXXXX|EP [NB_LINES]";
        "Print data in dwords, it stops when the end of the section is found"]);
    ("dw", Build_Command 2 (Some exec_data) (Some complete_x)
       ["SYMBOL|0xXXXX|EP [NB_LINES]";
        "Print data in words, it stops when the end of the section is found"]);
    ("dq", Build_Command 2 (Some exec_data) (Some complete_x)
       ["SYMBOL|0xXXXX|EP [NB_LINES]";
        "Print data in qwords, it stops when the end of the section is found"]);
    ("dump", Build_Command 2 (Some exec_dump) (Some complete_x)
       ["SYMBOL|0xXXXX|EP [NB_LINES]"; "Disassemble only."]);
    ("set", Build_Command 3 None None
       [EmptyString; "Set options"]);
    ("sym", Build_Command 3 (Some exec_sym) (Some complete_x)
       ["[SYMBOL 0xXXXX] [| FILTER]";
        "Print all symbols or set a new symbol.";
        "You can filter symbols by searching the word FILTER."]);
    ("calls", Build_Command 1 (Some exec_calls) (Some complete_x)
       ["[SECTION_NAME]"; "Print all calls which are in the given section"]);
    ("exit", Build_Command 0 (Some exec_exit) None
       [EmptyString; "Exit"]);
    ("sections", Build_Command 0 (Some exec_sections) None
       [EmptyString; "Print all sections"]);
    ("info", Build_Command 0 (Some exec_info) None
       [EmptyString; "Information about the current binary"]);
    ("display.print_section", Build_Command 0 (Some exec_display_print_section) None
       [EmptyString; "Print or not section when an address is found"]);
    ("display.print_comments", Build_Command 0 (Some exec_display_print_comments) None
       [EmptyString; "Print or not comments"]) ].

(** [self.COMMANDS] *)
Definition COMMANDS : gmap string Command := list_to_map command_table.

(** ** The outside world *)

(** The result of [os.listdir]: the entries, [FileNotFoundError],
    [ValueError] (a path with an embedded null character), or another
    [OSError] (not a directory, permission denied). *)
Inductive listing : Type :=
  | Entries (names : list string)
  | No_such_directory
  | Invalid_path
  | Listing_error.

(** The file system as the shell observes it: [os.listdir],
    [os.path.isdir], and whether [open(path, "w+")] succeeds. *)
Record FileSystem : Type := {
  listdir : string -> listing;
  isdir : string -> bool;
  writable : string -> bool;
}.

(** ** The completion engine *)

(** The scan that [complete], [__complete_load] and [__find_symbol] each
    write out: every item that is kept adds its rendering to [comp] and
    one to the counter [i], and the scan gives up ([None]) as soon as
    the counter equals [MAX_PRINT_COMPLETE]. *)
Fixpoint scan_candidates {A} (keep : A -> bool) (render : A -> string)
    (items : list A) (comp : list string) (i : nat) : option (list string) :=
  match items with
  | [] => Some comp
  | x :: items' =>
      if keep x then
        let comp := comp ++ [render x] in
        let i := i + 1 in
        if i =? MAX_PRINT_COMPLETE then None
        else scan_candidates keep render items' comp i
      else scan_candidates keep render items' comp i
  end.

(** The first branch of [complete]: the names of [COMMANDS_ALPHA] that
    start with [last_tok], each cut to its remainder plus a space. *)
Definition complete_command_name (last_tok : string) : option (list string) :=
  scan_candidates
    (fun cmd => PyStr.startswith cmd last_tok)
    (fun cmd => PyStr.drop (String.length last_tok) cmd +:+ " ")
    COMMANDS_ALPHA [] 0.

(** [__find_symbol] *)
Definition find_symbol (b : Binary) (tmp_line : string) (nth_arg : nat)
    (last_tok : string) : option (list string) :=
  scan_candidates
    (fun sym => PyStr.startswith sym last_tok)
    (fun sym => PyStr.drop (String.length last_tok) (sym +:+ " "))
    (PyDict.keys (symbols b)) [] 0.

(** *** The common string of several candidates (lines 377 to 396) *)

(** [{len(word): i for i, word in enumerate(comp)}]: for every length,
    the last index of a word of that length. *)
Fixpoint words_idx (comp : list string) (i : nat) (d : list (nat * nat))
    : list (nat * nat) :=
  match comp with
  | [] => d
  | word :: comp' => words_idx comp' (S i) (PyDict.set d (String.length word) i)
  end.

(** [min(d)] over the keys of a dictionary. *)
Definition py_min (l : list nat) : pyres nat :=
  match l with
  | [] => Raise ValueError
  | x :: l' => Ok (fold_left Nat.min l' x)
  end.

Definition dict_item (d : list (nat * nat)) (k : nat) : pyres nat :=
  match PyDict.get d k with
  | Some v => Ok v
  | None => Raise KeyError
  end.

(** The inner loop: does every other word carry [char] at index [i]?
    An index outside a word is an [IndexError]. *)
Fixpoint others_match (comp : list string) (js : list nat) (i : nat)
    (char : ascii) : pyres bool :=
  match js with
  | [] => Ok true
  | j :: js' =>
      let? word := item comp j in
      let? c := char_at word i in
      if Ascii.eqb c char then others_match comp js' i char else Ok false
  end.

(** The outer loop over the characters of the reference word. *)
Fixpoint common_loop (comp : list string) (js : list nat) (chars : string)
    (i : nat) (common : string) : pyres string :=
  match chars with
  | EmptyString => Ok common
  | String char chars' =>
      let? found := others_match comp js i char in
      if found then common_loop comp js chars' (S i) (common +:+ String char EmptyString)
      else Ok common
  end.

Definition common_string (comp : list string) : pyres string :=
  let d := words_idx comp 0 [] in
  let? min_len := py_min (PyDict.keys d) in
  let? ref := dict_item d min_len in
  (* set(range(len(comp))) without ref *)
  let? js := if ref <? length comp
             then Ok (List.filter (fun j => negb (j =? ref)) (seq 0 (length comp)))
             else Raise KeyError in
  let? ref_word := item comp ref in
  common_loop comp js ref_word 0 EmptyString.

Section Shell.

(** The file system, and the executors whose bodies are calls into
    the loader and the disassembler (load and its raw variants, x,
    the data dumps, dump, calls, help, sections, info): what they do
    to the session is left to the environment. *)
Variable fs : FileSystem.
Variable collaborator : executor -> list string -> M unit.

(** [__complete_load] *)
Definition run_complete_load (tmp_line : string) (nth_arg : nat)
    (last_tok : string) : M (option (list string)) :=
  if negb (nth_arg =? 1) then ret (Some [])
  else
    let basename := OsPath.basename last_tok in
    let dirname := OsPath.dirname last_tok in
    let dirname := if PyStr.nonempty dirname then dirname else "." in
    match listdir fs dirname with
    | Entries names =>
        ret (scan_candidates
               (fun f => PyStr.startswith f basename)
               (fun f =>
                  let f_backslahed := PyStr.backslash_spaces f in
                  let s := if isdir fs (OsPath.join dirname f)
                           then f_backslahed +:+ "/"
                           else f_backslahed +:+ " " in
                  PyStr.drop (String.length basename) s)
               names [] 0)
    | No_such_directory => ret (Some [])
    | Invalid_path => raise ValueError
    | Listing_error => raise OSError
    end.

(** [__complete_x] *)
Definition run_complete_x (tmp_line : string) (nth_arg : nat)
    (last_tok : string) : M (option (list string)) :=
  let* st := get_state in
  if negb (nth_arg =? 1) then ret (Some [])
  else
    match dis (ctx st) with
    | None => ret (Some [])
    | Some d => ret (find_symbol (binary d) tmp_line nth_arg last_tok)
    end.

Definition run_complete (f : completer) : string -> nat -> string -> M (option (list string)) :=
  match f with
  | complete_load => run_complete_load
  | complete_x => run_complete_x
  end.

(** [self.COMMANDS[name]] *)
Definition lookup_command (name : string) : pyres Command :=
  match COMMANDS !! name with
  | Some c => Ok c
  | None => Raise KeyError
  end.

(** The candidates of [complete] (lines 343 to 368): the list [comp],
    or [None] for too many, and [last_tok]. *)
Definition complete_candidates (line : string) : M (option (list string) * string) :=
  let tmp_line := line +:+ "_" in
  let* tokens := lift (Shlex.split tmp_line) in
  let* last := lift (item tokens (length tokens - 1)) in
  let last_tok := PyStr.drop_last last in
  let tmp_line := PyStr.drop_last tmp_line in
  let* comp :=
    if length tokens =? 1 then ret (complete_command_name last_tok)
    else
      try_except
        (let* first_tok := lift (item tokens 0) in
         let* c := lift (lookup_command first_tok) in
         match callback_complete c with
         | Some f => run_complete f tmp_line (length tokens - 1) last_tok
         | None => ret (Some [])
         end)
        (fun e => match e with
                  | KeyError => ret (Some [])
                  | _ => raise e
                  end) in
  ret (comp, last_tok).

(** [complete]: the candidates, the beginning of the current token,
    and the common string when there are several candidates. *)
Definition complete (line : string)
    : M (option (list string) * option string * option string) :=
  let* cands := complete_candidates line in
  match cands with
  | (None, _) =>
      let* _ := print (String "010" "too much possibilities") in
      ret (None, None, None)
  | (Some comp, last_tok) =>
      if length comp <=? 1 then ret (Some comp, Some last_tok, None)
      else
        let* common := lift (common_string comp) in
        ret (Some comp, Some last_tok, Some common)
  end.

(** ** The executors *)

(** [__exec_exit] *)
Definition run_exec_exit (args : list string) : M unit :=
  raise (SystemExit 0).

(** [self.ctx.dis.binary], an [AttributeError] when no binary is loaded. *)
Definition get_binary : M Binary :=
  let* st := get_state in
  match dis (ctx st) with
  | Some d => ret (binary d)
  | None => raise AttributeError
  end.

Definition set_binary (b : Binary) : M unit :=
  modify (fun st => set_ctx (set_dis (Some {| binary := b |}) (ctx st)) st).

(** [__exec_sym] *)
Definition run_exec_sym (args : list string) : M unit :=
  let* st := get_state in
  match dis (ctx st) with
  | None => error "load a file before"
  | Some _ =>
      if length args =? 1 then say (Out_symbols (sectionsname (ctx st)) None)
      else
        let* name := lift (item args 1) in
        let* c := lift (char_at name 0) in
        if Ascii.eqb c "|" then
          if (length args =? 2) || (3 <? length args) then
            error "bad arguments (warn: need spaces between |)"
          else
            let* filter := lift (item args 2) in
            say (Out_symbols (sectionsname (ctx st)) (Some filter))
        else if 3 <? length args then error "bad arguments"
        else if length args =? 2 then
          error "an address is required to save the symbol"
        else
          let* address := lift (item args 2) in
          if negb (PyStr.startswith address "0x") then
            error "the address should starts with 0x"
          else
            (* Save new symbol *)
            try_except
              (let* addr := lift (match PyInt.int16 address with
                                  | Some a => Ok a
                                  | None => Raise ValueError
                                  end) in
               let* _ := modify (set_database_modified true) in
               let* b := get_binary in
               let* _ :=
                 match PyDict.get (symbols b) name with
                 | Some last =>
                     match reverse_symbols b !! last with
                     | Some _ =>
                         set_binary {| symbols := symbols b;
                                       reverse_symbols := delete last (reverse_symbols b) |}
                     | None => raise KeyError
                     end
                 | None => ret tt
                 end in
               let* b := get_binary in
               let* _ := set_binary {| symbols := PyDict.set (symbols b) name addr;
                                       reverse_symbols := reverse_symbols b |} in
               let* b := get_binary in
               set_binary {| symbols := symbols b;
                             reverse_symbols := <[addr := name]> (reverse_symbols b) |})
              (fun _ => error "there was an error when creating a symbol")
  end.

(** [__exec_save] *)
Definition run_exec_save (args : list string) : M unit :=
  let* st := get_state in
  match db_path (ctx st) with
  | None => raise TypeError
  | Some path =>
      if negb (writable fs path) then raise OSError
      else
        (* open(path, w+) leaves an empty file *)
        let* _ := modify (fun st => set_disk (<[path := Empty_file]> (disk st)) st) in
        let* b := get_binary in
        let* st := get_state in
        let db := {| db_symbols := symbols b; db_history := history st |} in
        let* _ := modify (fun st => set_disk (<[path := Json_file db]> (disk st)) st) in
        let* _ := print ("database saved to " +:+ path) in
        modify (set_database_modified false)
  end.

(** [__exec_display_print_section] *)
Definition run_exec_display_print_section (args : list string) : M unit :=
  let* st := get_state in
  if sectionsname (ctx st) then
    let* _ := print "now it's off" in
    modify (fun st => set_ctx (set_sectionsname false (ctx st)) st)
  else
    let* _ := print "now it's on" in
    modify (fun st => set_ctx (set_sectionsname true (ctx st)) st).

(** [__exec_display_print_comments] *)
Definition run_exec_display_print_comments (args : list string) : M unit :=
  let* st := get_state in
  if comments (ctx st) then
    let* _ := print "now it's off" in
    modify (fun st => set_ctx (set_comments false (ctx st)) st)
  else
    let* _ := print "now it's on" in
    modify (fun st => set_ctx (set_comments true (ctx st)) st).

(** The call [c.callback_exec(args)]. *)
Definition run_exec (f : executor) (args : list string) : M unit :=
  match f with
  | exec_exit => run_exec_exit args
  | exec_sym => run_exec_sym args
  | exec_save => run_exec_save args
  | exec_display_print_section => run_exec_display_print_section args
  | exec_display_print_comments => run_exec_display_print_comments args
  | _ => collaborator f args
  end.

(** ** The dispatcher *)

(** What [exec_command] decides for a tokenized line: to report an
    error, to call an executor, or to do nothing (a command without
    an executor). *)
Inductive dispatch_result : Type :=
  | Reject (message : string)
  | Invoke (f : executor) (args : list string)
  | Skip.

Definition dispatch (args : list string) : pyres dispatch_result :=
  let? name := item args 0 in
  match COMMANDS !! name with
  | None => Ok (Reject "unknown command")
  | Some c =>
      if max_args c <? length args - 1 then
        Ok (Reject (name +:+ " takes max " +:+ PyStr.of_nat (max_args c) +:+ " args"))
      else
        match callback_exec c with
        | Some f => Ok (Invoke f args)
        | None => Ok Skip
        end
  end.

(** [exec_command] *)
Definition exec_command (line : string) : M unit :=
  let* args := lift (Shlex.split line) in
  let* d := lift (dispatch args) in
  match d with
  | Reject message => error message
  | Invoke f args => run_exec f args
  | Skip => ret tt
  end.

(** ** The read loop and the exit guard *)

(** Modelled from the spec: [ReadLine.loop] (lib/readline.py), the
    blocking read-and-dispatch cycle of the input component. It
    dispatches the lines typed until the end of input, one at a time,
    records each dispatched line in the history, and then returns
    control; an exception of a command leaves the cycle. *)
Fixpoint rl_loop (lines : list string) : M unit :=
  match lines with
  | [] => ret tt
  | line :: lines' =>
      let* _ := exec_command line in
      let* _ := modify (fun st => set_history (history st ++ [line]) st) in
      rl_loop lines'
  end.

(** How a run of the main loop over a finite input ends: through
    [break], or still inside [rl.loop()] once the input is used up. *)
Inductive loop_end : Type :=
  | Loop_break
  | Loop_reentered.

(** The loop that ends [Interactive.__init__] (lines 320 to 324). Each
    element of [input] is what one call of [rl.loop()] reads before
    the end of input is signalled. *)
Fixpoint main_loop (input : list (list string)) : M loop_end :=
  match input with
  | [] => ret Loop_reentered
  | lines :: input' =>
      let* _ := rl_loop lines in
      let* st := get_state in
      if negb (database_modified st) then ret Loop_break
      else
        let* _ := print "the database was modified, run save or exit to force" in
        main_loop input'
  end.

End Shell.

(** ** Sessions to run the shell on *)

(** A file system without directories, on which every file can be
    written, and collaborators that leave the session alone. *)
Definition no_files : FileSystem :=
  {| listdir := fun _ => No_such_directory;
     isdir := fun _ => false;
     writable := fun _ => true |}.

Definition idle : executor -> list string -> M unit := fun _ _ => ret tt.

Definition session_of (b : Binary) : Interactive :=
  {| ctx := {| filename := Some "a.out"; db_path := Some "a.out.db";
               dis := Some {| binary := b |};
               sectionsname := true; comments := true |};
     database_modified := false;
     history := [];
     disk := ∅ |}.

(** A session on a binary without symbols. *)
Definition fresh_session : Interactive :=
  session_of {| symbols := []; reverse_symbols := ∅ |}.

(** The binary of a session (an empty table when none is loaded). *)
Definition binary_of (st : Interactive) : Binary :=
  match dis (ctx st) with
  | Some d => binary d
  | None => {| symbols := []; reverse_symbols := ∅ |}
  end.

(** ** Notions used to state the properties *)

(** The session once [sym] has stored a table: the flag is set and the
    binary replaced. *)
Definition stored (b : Binary) (st : Interactive) : Interactive :=
  set_ctx (set_dis (Some {| binary := b |}) (ctx st)) (set_database_modified true st).

(** The effect of the body of the [try] on the two tables; [None] when
    the reverse table has no entry to delete ([KeyError]). *)
Definition sym_tables (name : string) (addr : Z) (b : Binary) : option Binary :=
  match PyDict.get (symbols b) name with
  | Some last =>
      match reverse_symbols b !! last with
      | Some _ =>
          Some {| symbols := PyDict.set (symbols b) name addr;
                  reverse_symbols := <[addr := name]> (delete last (reverse_symbols b)) |}
      | None => None
      end
  | None =>
      Some {| symbols := PyDict.set (symbols b) name addr;
              reverse_symbols := <[addr := name]> (reverse_symbols b) |}
  end.

(** The two tables are inverse to each other. *)
Definition bijective (b : Binary) : Prop :=
  forall name addr,
    PyDict.get (symbols b) name = Some addr <-> reverse_symbols b !! addr = Some name.

(** [name] is a symbol name: not empty, and not the filter form of
    [sym], which starts with a bar. *)
Definition symbol_name (name : string) : Prop :=
  exists c, String.get 0 name = Some c /\ c <> "|"%char.

(** A binary whose only symbol is main, at address 1. *)
Definition one_symbol : Binary :=
  {| symbols := [("main", 1%Z)]; reverse_symbols := {[ 1%Z := "main" ]} |}.

(** A binary with the eighty symbols s0 to s79. *)
Definition eighty_symbols : list (string * Z) :=
  map (fun i => ("s" +:+ PyStr.of_nat i, Z.of_nat i)) (seq 0 80).

Definition eighty_binary : Binary :=
  {| symbols := eighty_symbols;
     reverse_symbols := list_to_map (map (fun p => (snd p, fst p)) eighty_symbols) |}.

(** The rendering of a directory entry in [__complete_load]. *)
Definition render_entry (fs : FileSystem) (dirname basename f : string) : string :=
  let f_backslahed := PyStr.backslash_spaces f in
  let s := if isdir fs (OsPath.join dirname f)
           then f_backslahed +:+ "/" else f_backslahed +:+ " " in
  PyStr.drop (String.length basename) s.

(** The directory that [__complete_load] lists for a token. *)
Definition listed_directory (last_tok : string) : string :=
  let dirname := OsPath.dirname last_tok in
  if PyStr.nonempty dirname then dirname else ".".

(** The dictionary of lengths: every value is the index of a word of
    the key's length, and every word seen so far has its length as a
    key. *)
Definition lengths_indexed (comp : list string) (n : nat) (d : list (nat * nat)) : Prop :=
  (forall k v, PyDict.get d k = Some v ->
     exists w, nth_error comp v = Some w /\ String.length w = k) /\
  (forall j w, j < n -> nth_error comp j = Some w ->
     exists v, PyDict.get d (String.length w) = Some v).

(** The warning of the main loop. *)
Definition unsaved_warning : output :=
  Out_print "the database was modified, run save or exit to force".

(** [s] holds no space character. *)
Fixpoint no_space (s : string) : bool :=
  match s with
  | EmptyString => true
  | String c s' => negb (Ascii.eqb c " ") && no_space s'
  end.

(** A directory with a file whose name holds a space, a plain file and
    a subdirectory. *)
Definition sample_files : FileSystem :=
  {| listdir := fun d => if String.eqb d "." then Entries ["my file"; "main.c"; "src"]
                         else No_such_directory;
     isdir := fun p => String.eqb p "./src";
     writable := fun _ => true |}.

(** A session without a loaded binary. *)
Definition unloaded_session : Interactive :=
  {| ctx := {| filename := None; db_path := Some "a.out.db"; dis := None;
               sectionsname := true; comments := true |};
     database_modified := false;
     history := [];
     disk := ∅ |}.

(** A session on the binary with the one symbol main. *)
Definition one_session : Interactive := session_of one_symbol.

(** The states that the tokenizer reaches: a quote state holds a quote
    character, and the input is not yet exhausted. *)
Definition reachable (state : Shlex.lexstate) (esc : Shlex.escstate) : Prop :=
  match state with
  | Shlex.S_none => False
  | Shlex.S_quote q => Shlex.is_quote q = true
  | _ => True
  end /\
  match esc with
  | Shlex.E_quote q => Shlex.is_quote q = true
  | _ => True
  end.

(** * Properties *)

(** ** The model on concrete inputs *)

Example split_sym :
  Shlex.split "sym main 0x401000" = Ok ["sym"; "main"; "0x401000"].
Proof. reflexivity. Qed.

Example split_quotes :
  Shlex.split "load 'my file' a\ b 'c'\''d' ''" = Ok ["load"; "my file"; "a b"; "c'd"; EmptyString].
Proof. reflexivity. Qed.

Example split_blank : Shlex.split "   " = Ok [].
Proof. reflexivity. Qed.

Example split_unbalanced : Shlex.split "load 'abc" = Raise ValueError.
Proof. reflexivity. Qed.

Example int16_addr : PyInt.int16 "0x401000" = Some 4198400%Z.
Proof. reflexivity. Qed.

Example int16_bad :
  PyInt.int16 "0x" = None /\ PyInt.int16 "0xzz" = None /\
  PyInt.int16 "0x1__2" = None /\ PyInt.int16 "0x12_" = None.
Proof. repeat split; reflexivity. Qed.

Example int16_lenient :
  PyInt.int16 "0x_1f " = Some 31%Z /\ PyInt.int16 "0XFF" = Some 255%Z.
Proof. split; reflexivity. Qed.

Example path_parts :
  OsPath.dirname "/usr/lib/x" = "/usr/lib" /\ OsPath.basename "/usr/lib/x" = "x" /\
  OsPath.dirname "x" = EmptyString /\ OsPath.dirname "/x" = "/" /\
  OsPath.basename "a/" = EmptyString /\ OsPath.join "." "f" = "./f".
Proof. repeat split; reflexivity. Qed.

Example COMMANDS_sym : max_args <$> COMMANDS !! "sym" = Some 3.
Proof. reflexivity. Qed.

Example COMMANDS_unknown : COMMANDS !! "quit" = None.
Proof. reflexivity. Qed.

Example common_string_lraw :
  common_string ["awarm "; "awmips "; "awmips64 "; "awx86 "; "awx64 "] = Ok "aw".
Proof. reflexivity. Qed.

Example common_string_short_last :
  common_string ["abc"; "ab"; "abd"; "ab"] = Ok "ab".
Proof. reflexivity. Qed.

(** ** Facts about strings *)

#[local] Arguments String.append !s1 s2 : simpl nomatch.

Section string_facts.

Import PyStr.

Lemma string_app_nil_r (s : string) : s +:+ EmptyString = s.
Proof. induction s as [|c s IH]; simpl; [reflexivity | now rewrite IH]. Qed.

Lemma string_app_assoc (a b c : string) : (a +:+ b) +:+ c = a +:+ (b +:+ c).
Proof. induction a as [|x a IH]; simpl; [reflexivity | now rewrite IH]. Qed.

Lemma string_length_app (a b : string) :
  String.length (a +:+ b) = String.length a + String.length b.
Proof. induction a as [|x a IH]; simpl; [reflexivity | now rewrite IH]. Qed.

Lemma string_app_inv_head (a b c : string) : a +:+ b = a +:+ c -> b = c.
Proof.
  induction a as [|x a IH]; simpl; intros H; [exact H |].
  injection H as H. now apply IH.
Qed.

Lemma string_get_app_l (a b : string) (i : nat) :
  i < String.length a -> String.get i (a +:+ b) = String.get i a.
Proof.
  revert i. induction a as [|x a IH]; simpl; intros i Hi; [lia |].
  destruct i as [|i]; [reflexivity | apply IH; lia].
Qed.

Lemma string_get_app_at (a b : string) (c : ascii) :
  String.get (String.length a) (a +:+ String c b) = Some c.
Proof. induction a as [|x a IH]; simpl; [reflexivity | exact IH]. Qed.

Lemma string_get_lt (s : string) (i : nat) :
  i < String.length s -> exists c, String.get i s = Some c.
Proof.
  revert i. induction s as [|x s IH]; simpl; intros i Hi; [lia |].
  destruct i as [|i]; [now exists x | apply IH; lia].
Qed.

Lemma is_prefix_refl (s : string) : is_prefix s s.
Proof. exists EmptyString. now rewrite string_app_nil_r. Qed.

Lemma is_prefix_nil (s : string) : is_prefix EmptyString s.
Proof. now exists s. Qed.

Lemma is_prefix_length (p w : string) :
  is_prefix p w -> String.length p <= String.length w.
Proof. intros [t ->]. rewrite string_length_app. lia. Qed.

Lemma is_prefix_app_l (p t : string) : is_prefix p (p +:+ t).
Proof. now exists t. Qed.

(** A prefix grows by the character that follows it. *)
Lemma is_prefix_snoc (p w : string) (c : ascii) :
  is_prefix p w -> String.get (String.length p) w = Some c ->
  is_prefix (p +:+ String c EmptyString) w.
Proof.
  intros [t ->] Hget. destruct t as [|x t].
  - rewrite string_app_nil_r in Hget.
    pose proof (get_correct p p) as [_ Hc]. 
    assert (Hnone : String.get (String.length p) p = None).
    { clear. induction p as [|x p IH]; simpl; [reflexivity | exact IH]. }
    congruence.
  - rewrite string_get_app_at in Hget. injection Hget as ->.
    exists t. now rewrite string_app_assoc.
Qed.

(** Two prefixes of one string are comparable. *)
Lemma is_prefix_split (p a b : string) :
  is_prefix p (a +:+ b) -> is_prefix p a \/ exists t, p = a +:+ t.
Proof.
  revert p. induction a as [|x a IH]; simpl; intros p H.
  - right. now exists p.
  - destruct p as [|y p]; [left; apply is_prefix_nil |].
    destruct H as [t H]. simpl in H. injection H as -> H.
    destruct (IH p) as [[u ->] | [u ->]].
    + now exists t.
    + left. exists u. reflexivity.
    + right. exists u. reflexivity.
Qed.

Lemma startswith_is_prefix (s p : string) :
  startswith s p = true <-> is_prefix p s.
Proof.
  revert s. induction p as [|a p IH]; intros s.
  - split; [intros _; apply is_prefix_nil | now destruct s].
  - destruct s as [|b s]; simpl.
    + split; [discriminate | intros [t H]; discriminate].
    + destruct (Ascii.eqb_spec a b) as [-> | Hne].
      * rewrite IH. split; intros [t H]; exists t; simpl; [now rewrite H | now injection H].
      * split; [discriminate | intros [t H]; simpl in H; congruence].
Qed.

End string_facts.

(** ** Facts about insertion-ordered dictionaries *)

Section dict_facts.

Context {K V : Type} `{EqDecision K}.
Implicit Types (d : list (K * V)) (k : K) (v : V).

Lemma dict_get_set_eq d k v : PyDict.get (PyDict.set d k v) k = Some v.
Proof.
  induction d as [|[k' v'] d IH]; simpl.
  - now rewrite decide_True.
  - destruct (decide (k' = k)) as [-> | Hne]; simpl.
    + now rewrite decide_True.
    + now rewrite decide_False.
Qed.

Lemma dict_get_set_ne d k k' v :
  k <> k' -> PyDict.get (PyDict.set d k v) k' = PyDict.get d k'.
Proof.
  intros Hne. induction d as [|[k0 v0] d IH]; simpl.
  - now rewrite decide_False.
  - destruct (decide (k0 = k)) as [-> | Hne0]; simpl.
    + now rewrite !decide_False.
    + now rewrite IH.
Qed.

Lemma dict_keys_get d k : In k (PyDict.keys d) <-> exists v, PyDict.get d k = Some v.
Proof.
  induction d as [|[k0 v0] d IH]; simpl.
  - split; [tauto | intros [v Hv]; discriminate].
  - destruct (decide (k0 = k)) as [-> | Hne].
    + split; [now exists v0 | now left].
    + rewrite <- IH. tauto.
Qed.

End dict_facts.

(** ** The common string *)

Section common_string_facts.

Import PyStr.

(** [min] returns a least element of a non-empty list. *)
Lemma py_min_spec (l : list nat) :
  l <> [] ->
  exists m, py_min l = Ok m /\ In m l /\ forall k, In k l -> m <= k.
Proof.
  destruct l as [|x l]; [congruence | intros _].
  exists (fold_left Nat.min l x). split; [reflexivity |].
  revert x. induction l as [|y l IH]; intros x; simpl.
  - split; [now left | intros k [-> | []]; lia].
  - destruct (IH (Nat.min x y)) as [Hin Hle]. split.
    + destruct Hin as [Heq | Hin]; [| right; right; exact Hin].
      rewrite <- Heq.
      destruct (Nat.min_dec x y) as [E | E]; rewrite E; [left | right; left]; reflexivity.
    + intros k [-> | [-> | Hk]].
      * specialize (Hle (Nat.min k y) (or_introl eq_refl)). lia.
      * specialize (Hle (Nat.min x k) (or_introl eq_refl)). lia.
      * apply Hle. now right.
Qed.

Lemma words_idx_spec (comp : list string) :
  forall rest pre d,
    comp = pre ++ rest ->
    lengths_indexed comp (length pre) d ->
    lengths_indexed comp (length comp) (words_idx rest (length pre) d).
Proof.
  induction rest as [|word rest IH]; intros pre d Hcomp Hd; simpl.
  - subst comp. rewrite app_nil_r. rewrite app_nil_r in Hd. exact Hd.
  - replace (S (length pre)) with (length (pre ++ [word]))
      by (rewrite length_app; simpl; lia).
    apply IH; [now rewrite <- app_assoc |].
    assert (Hword : nth_error comp (length pre) = Some word).
    { subst comp. rewrite nth_error_app2 by lia. now rewrite Nat.sub_diag. }
    destruct Hd as [Hval Hkey]. split.
    + intros k v Hget.
      destruct (decide (String.length word = k)) as [<- | Hne].
      * rewrite dict_get_set_eq in Hget. injection Hget as <-. now exists word.
      * rewrite dict_get_set_ne in Hget by exact Hne. now apply Hval.
    + intros j w Hj Hw. rewrite length_app in Hj. simpl in Hj.
      destruct (decide (String.length word = String.length w)) as [E | Hne].
      * rewrite <- E, dict_get_set_eq. eauto.
      * rewrite dict_get_set_ne by exact Hne.
        apply (Hkey j); [| exact Hw].
        destruct (decide (j = length pre)) as [-> | ?]; [| lia].
        congruence.
Qed.

(** The inner loop reads inside every word as long as [i] is below the
    length of each, and says whether they all carry [char] there. *)
Lemma others_match_spec (comp : list string) (i : nat) (char : ascii) :
  forall js,
    (forall j, In j js -> exists w, nth_error comp j = Some w /\ i < String.length w) ->
    (others_match comp js i char = Ok true /\
     forall j w, In j js -> nth_error comp j = Some w -> String.get i w = Some char)
    \/
    (others_match comp js i char = Ok false /\
     exists j w c, In j js /\ nth_error comp j = Some w /\
                   String.get i w = Some c /\ c <> char).
Proof.
  induction js as [|j js IH]; intros Hjs; simpl.
  - left. split; [reflexivity | intros j w []].
  - destruct (Hjs j (or_introl eq_refl)) as (w & Hw & Hi).
    destruct (string_get_lt w i Hi) as [c Hc].
    unfold item, char_at. rewrite Hw. simpl. rewrite Hc. simpl.
    destruct (Ascii.eqb_spec c char) as [-> | Hne].
    + destruct IH as [[-> Hall] | [-> Hex]].
      * intros j' Hj'. apply Hjs. now right.
      * left. split; [reflexivity |].
        intros j' w' [<- | Hj'] Hw'; [congruence | now apply (Hall j')].
      * right. split; [reflexivity |].
        destruct Hex as (j' & w' & c' & Hj' & Hrest). exists j', w', c'.
        split; [now right | exact Hrest].
    + right. split; [reflexivity |]. exists j, w, c. split; [now left | auto].
Qed.

(** The outer loop returns the longest prefix of the reference word
    that the other words share. *)
Lemma common_loop_spec (comp : list string) (js : list nat) (r : string) :
  (forall j, In j js ->
     exists w, nth_error comp j = Some w /\ String.length r <= String.length w) ->
  forall chars common,
    r = common +:+ chars ->
    (forall j w, In j js -> nth_error comp j = Some w -> is_prefix common w) ->
    exists res,
      common_loop comp js chars (String.length common) common = Ok res /\
      is_prefix res r /\
      (forall j w, In j js -> nth_error comp j = Some w -> is_prefix res w) /\
      (forall p, is_prefix p r ->
         (forall j w, In j js -> nth_error comp j = Some w -> is_prefix p w) ->
         is_prefix p res).
Proof.
  intros Hjs. induction chars as [|char chars IH]; intros common Hr Hpre; simpl.
  - exists common. rewrite string_app_nil_r in Hr. subst r.
    repeat split; auto using is_prefix_refl.
  - assert (Hlen : String.length common < String.length r).
    { rewrite Hr, string_length_app. simpl. lia. }
    destruct (others_match_spec comp (String.length common) char js) as [[-> Hall] | [-> Hex]].
    + intros j Hj. destruct (Hjs j Hj) as (w & Hw & Hle). exists w. split; [exact Hw | lia].
    + simpl.
      replace (S (String.length common))
        with (String.length (common +:+ String char EmptyString))
        by (rewrite string_length_app; simpl; lia).
      apply IH.
      * rewrite Hr, string_app_assoc. reflexivity.
      * intros j w Hj Hw. apply is_prefix_snoc; [now apply (Hpre j) | now apply (Hall j)].
    + simpl. exists common. split; [reflexivity |].
      split; [rewrite Hr; apply is_prefix_app_l |].
      split; [exact Hpre |].
      intros p Hpr Hpjs.
      destruct Hex as (j & w & c & Hj & Hw & Hc & Hne).
      rewrite Hr in Hpr. apply is_prefix_split in Hpr as Hcase.
      destruct Hcase as [Hdone | [t ->]]; [exact Hdone |].
      destruct t as [|c0 t]; [rewrite string_app_nil_r; apply is_prefix_refl |].
      exfalso. destruct Hpr as [u Hu].
      rewrite string_app_assoc in Hu. apply string_app_inv_head in Hu.
      simpl in Hu. injection Hu as <- _.
      destruct (Hpjs j w Hj Hw) as [u' ->].
      rewrite string_app_assoc in Hc. simpl in Hc.
      rewrite string_get_app_at in Hc. congruence.
Qed.

(** The common string of a non-empty list of candidates is computed
    without an exception, and it is their longest common prefix. *)
Lemma common_string_spec (comp : list string) :
  comp <> [] ->
  exists common,
    common_string comp = Ok common /\
    (forall w, In w comp -> is_prefix common w) /\
    (forall p, (forall w, In w comp -> is_prefix p w) -> is_prefix p common).
Proof.
  intros Hne. unfold common_string.
  destruct (words_idx_spec comp comp [] []) as [Hval Hkey]; [reflexivity | |].
  { split; [intros k v H; discriminate | simpl; intros j w Hj; lia]. }
  simpl in Hval, Hkey. set (d := words_idx comp 0 []) in *.
  assert (Hd : PyDict.keys d <> []).
  { destruct comp as [|w0 comp']; [congruence |].
    destruct (Hkey 0 w0) as [v Hv]; [simpl; lia | reflexivity |].
    intros E. assert (Hin : In (String.length w0) (PyDict.keys d))
      by (apply dict_keys_get; eauto).
    rewrite E in Hin. destruct Hin. }
  destruct (py_min_spec _ Hd) as (min_len & -> & Hin & Hmin). simpl.
  apply dict_keys_get in Hin as [ref Href]. unfold dict_item. rewrite Href. simpl.
  destruct (Hval _ _ Href) as (r & Hr & Hrlen).
  assert (Hreflt : ref < length comp) by (apply nth_error_Some; congruence).
  apply Nat.ltb_lt in Hreflt as Hb. rewrite Hb. simpl.
  unfold item at 1. rewrite Hr. simpl.
  assert (Hshort : forall w, In w comp -> String.length r <= String.length w).
  { intros w Hw. apply In_nth_error in Hw as [j Hj].
    destruct (Hkey j w) as [v Hv]; [apply nth_error_Some; congruence | exact Hj |].
    rewrite Hrlen. apply Hmin. apply dict_keys_get. eauto. }
  set (js := List.filter (fun j => negb (j =? ref)) (seq 0 (length comp))).
  assert (Hjs : forall j, In j js <-> j < length comp /\ j <> ref).
  { intros j. unfold js. rewrite filter_In, in_seq, negb_true_iff, Nat.eqb_neq. lia. }
  destruct (common_loop_spec comp js r) with (chars := r) (common := EmptyString)
    as (res & Hres & Hresr & Hresjs & Hmax).
  - intros j Hj. apply Hjs in Hj as [Hj _].
    destruct (nth_error comp j) as [w|] eqn:Hw; [| apply nth_error_None in Hw; lia].
    exists w. split; [reflexivity |]. apply Hshort. eapply nth_error_In; eauto.
  - reflexivity.
  - intros; apply is_prefix_nil.
  - simpl in Hres. exists res. split; [exact Hres |]. split.
    + intros w Hw. apply In_nth_error in Hw as [j Hj].
      destruct (decide (j = ref)) as [-> | Hjref].
      * congruence.
      * apply (Hresjs j); [| exact Hj]. apply Hjs. split; [| exact Hjref].
        apply nth_error_Some. congruence.
    + intros p Hp. apply Hmax.
      * apply Hp. eapply nth_error_In; eauto.
      * intros j w _ Hw. apply Hp. eapply nth_error_In; eauto.
Qed.

End common_string_facts.

(** ** The completion engine *)

Section completion_facts.

Import PyStr.

Variable fs : FileSystem.

(** [complete] is its candidates followed by the common string. *)
Lemma complete_of_candidates (line : string) (st : Interactive)
    (comp : list string) (last_tok : string) :
  value (complete_candidates fs line st) = Ok (Some comp, last_tok) ->
  value (complete fs line st) =
    if length comp <=? 1 then Ok (Some comp, Some last_tok, None)
    else match common_string comp with
         | Ok common => Ok (Some comp, Some last_tok, Some common)
         | Raise e => Raise e
         end.
Proof.
  intros H. unfold complete, bind. rewrite H.
  destruct (length comp <=? 1); [reflexivity |].
  unfold lift. simpl. now destruct (common_string comp).
Qed.

(** Every list that [complete] returns is the list of its candidates. *)
Lemma complete_result_candidates (line : string) (st : Interactive)
    (comp : list string) (tok third : option string) :
  value (complete fs line st) = Ok (Some comp, tok, third) ->
  exists last_tok,
    value (complete_candidates fs line st) = Ok (Some comp, last_tok) /\
    tok = Some last_tok.
Proof.
  unfold complete, bind.
  destruct (complete_candidates fs line st) as [[[[c|] t]|e] out st'];
    cbn [value final printed]; intros H; try discriminate H.
  destruct (length c <=? 1).
  - cbn in H. injection H as -> <- _. now exists t.
  - unfold lift in H. cbn [value final printed] in H.
    destruct (common_string c); cbn in H; [| discriminate H].
    injection H as -> <- _. now exists t.
Qed.

(** C3. Whenever the candidates of [complete] are a list of more than
    one string, the third component of the result is computed without
    an exception (no index outside a candidate is read), it is a
    prefix of every candidate, every string that is a prefix of every
    candidate is a prefix of it (so it is the longest one), and it is
    no longer than any candidate. With zero or one candidate the
    third component is [None]. *)
Theorem common_prefix_correct (line : string) (st : Interactive)
    (comp : list string) (last_tok : string) :
  value (complete_candidates fs line st) = Ok (Some comp, last_tok) ->
  (length comp <= 1 ->
     value (complete fs line st) = Ok (Some comp, Some last_tok, None)) /\
  (1 < length comp ->
     exists common,
       value (complete fs line st) = Ok (Some comp, Some last_tok, Some common) /\
       common_string comp = Ok common /\
       (forall w, In w comp -> is_prefix common w) /\
       (forall p, (forall w, In w comp -> is_prefix p w) ->
                  is_prefix p common /\ String.length p <= String.length common) /\
       (forall w, In w comp -> String.length common <= String.length w)).
Proof.
  intros H. apply complete_of_candidates in H. split; intros Hlen.
  - rewrite H. apply Nat.leb_le in Hlen. now rewrite Hlen.
  - destruct (common_string_spec comp) as (common & Hc & Hpre & Hmax).
    { destruct comp; [simpl in Hlen; lia | discriminate]. }
    exists common. rewrite H, Hc.
    apply Nat.leb_gt in Hlen. rewrite Hlen.
    repeat split; auto using is_prefix_length.
Qed.

End completion_facts.

Lemma common_prefix_correct_witness :
  exists common,
    value (complete no_files "lr" fresh_session) =
      Ok (Some ["awarm "; "awmips "; "awmips64 "; "awx86 "; "awx64 "],
          Some "lr", Some common) /\
    common_string ["awarm "; "awmips "; "awmips64 "; "awx86 "; "awx64 "] = Ok common /\
    (forall w, In w ["awarm "; "awmips "; "awmips64 "; "awx86 "; "awx64 "] ->
               PyStr.is_prefix common w) /\
    (forall p, (forall w, In w ["awarm "; "awmips "; "awmips64 "; "awx86 "; "awx64 "] ->
                          PyStr.is_prefix p w) ->
               PyStr.is_prefix p common /\ String.length p <= String.length common) /\
    (forall w, In w ["awarm "; "awmips "; "awmips64 "; "awx86 "; "awx64 "] ->
               String.length common <= String.length w).
Proof.
  apply (common_prefix_correct no_files "lr" fresh_session
           ["awarm "; "awmips "; "awmips64 "; "awx86 "; "awx64 "] "lr").
  - reflexivity.
  - simpl. lia.
Defined.

(** *** The cap on the number of candidates *)

(** The scan gives up exactly when the counter reaches the cap, that
    is when the [MAX_PRINT_COMPLETE]-th kept item is met. *)
Lemma scan_candidates_spec {A} (keep : A -> bool) (render : A -> string) :
  forall (items : list A) (comp : list string) (i : nat),
    i < MAX_PRINT_COMPLETE ->
    scan_candidates keep render items comp i =
      if MAX_PRINT_COMPLETE <=? i + length (List.filter keep items) then None
      else Some (comp ++ map render (List.filter keep items)).
Proof.
  induction items as [|x items IH]; intros comp i Hi;
    cbn [scan_candidates List.filter].
  - cbn [length map]. rewrite Nat.add_0_r, app_nil_r.
    apply Nat.leb_gt in Hi. now rewrite Hi.
  - destruct (keep x); cbn [length map].
    + destruct (Nat.eqb_spec (i + 1) MAX_PRINT_COMPLETE) as [E | E].
      * assert (H : MAX_PRINT_COMPLETE <= i + S (length (List.filter keep items))) by lia.
        apply Nat.leb_le in H. now rewrite H.
      * rewrite IH by lia. rewrite <- app_assoc. cbn [app].
        now replace (i + 1 + length (List.filter keep items))
          with (i + S (length (List.filter keep items))) by lia.
    + now apply IH.
Qed.

Lemma scan_candidates_from_start {A} (keep : A -> bool) (render : A -> string)
    (items : list A) :
  scan_candidates keep render items [] 0 =
    if MAX_PRINT_COMPLETE <=? length (List.filter keep items) then None
    else Some (map render (List.filter keep items)).
Proof.
  rewrite scan_candidates_spec by (unfold MAX_PRINT_COMPLETE; lia).
  reflexivity.
Qed.

(** C6, as the code has it. Each of the three scans (command names,
    symbols, directory entries) returns the full list of candidates
    when fewer than 80 names match and gives up when 80 or more match;
    command-name completion never gives up, because there are 22 names.
    Giving up is not an exception: [complete] prints a notice and
    returns the triple of [None]s. *)
Theorem candidate_cap :
  (forall last_tok,
     let matching := List.filter (fun cmd => PyStr.startswith cmd last_tok) COMMANDS_ALPHA in
     length matching < 80 /\
     complete_command_name last_tok =
       Some (map (fun cmd => PyStr.drop (String.length last_tok) cmd +:+ " ") matching)) /\
  (forall b tmp_line nth_arg last_tok,
     let matching := List.filter (fun sym => PyStr.startswith sym last_tok)
                                 (PyDict.keys (symbols b)) in
     find_symbol b tmp_line nth_arg last_tok =
       if 80 <=? length matching then None
       else Some (map (fun sym => PyStr.drop (String.length last_tok) (sym +:+ " ")) matching)) /\
  (forall fs tmp_line last_tok names st,
     let matching := List.filter (fun f => PyStr.startswith f (OsPath.basename last_tok)) names in
     listdir fs (listed_directory last_tok) = Entries names ->
     run_complete_load fs tmp_line 1 last_tok st =
       Run (Ok (if 80 <=? length matching then None
                else Some (map (render_entry fs (listed_directory last_tok)
                                             (OsPath.basename last_tok)) matching)))
           [] st) /\
  (forall fs line st last_tok,
     value (complete_candidates fs line st) = Ok (None, last_tok) ->
     value (complete fs line st) = Ok (None, None, None) /\
     printed (complete fs line st) =
       printed (complete_candidates fs line st)
         ++ [Out_print (String "010" "too much possibilities")]).
Proof.
  split; [| split; [| split]].
  - intros last_tok matching.
    assert (Hlen : length matching < 80).
    { unfold matching. eapply Nat.le_lt_trans; [apply filter_length_le |].
      simpl. lia. }
    split; [exact Hlen |].
    unfold complete_command_name. rewrite scan_candidates_from_start.
    fold matching. unfold MAX_PRINT_COMPLETE.
    apply Nat.leb_gt in Hlen. now rewrite Hlen.
  - intros. unfold find_symbol. now rewrite scan_candidates_from_start.
  - intros fs tmp_line last_tok names st matching Hls.
    unfold run_complete_load. simpl. fold (listed_directory last_tok).
    rewrite Hls. unfold ret. now rewrite scan_candidates_from_start.
  - intros fs line st last_tok H. unfold complete, bind. rewrite H. simpl.
    split; reflexivity.
Qed.

(** C6 fails as stated: with exactly 80 symbols that match the prefix
    (at most 80, not more than 80), completion of the argument of x
    gives up instead of returning the 80 candidates. *)
Lemma candidate_cap_counterexample :
  length (List.filter (fun sym => PyStr.startswith sym "s")
                      (PyDict.keys (symbols eighty_binary))) = 80 /\
  complete no_files "x s" (session_of eighty_binary) =
    Run (Ok (None, None, None))
        [Out_print (String "010" "too much possibilities")]
        (session_of eighty_binary) /\
  ~ (length (List.filter (fun sym => PyStr.startswith sym "s")
                         (PyDict.keys (symbols eighty_binary))) <= 80 ->
     exists comp last_tok common,
       value (complete no_files "x s" (session_of eighty_binary)) =
         Ok (Some comp, last_tok, common)).
Proof.
  split; [vm_compute; reflexivity |].
  assert (H : complete no_files "x s" (session_of eighty_binary) =
              Run (Ok (None, None, None))
                  [Out_print (String "010" "too much possibilities")]
                  (session_of eighty_binary))
    by (vm_compute; reflexivity).
  split; [exact H |].
  intros Hstated. destruct Hstated as (comp & last_tok & common & Hc).
  - vm_compute. repeat constructor.
  - rewrite H in Hc. discriminate Hc.
Qed.

(** *** The worked example of the specification *)

(** C7 fails as stated: completing lo does not return five candidates
    with the common string ad. *)
Lemma complete_lo_counterexample :
  ~ exists comp last_tok,
      value (complete no_files "lo" fresh_session) = Ok (Some comp, last_tok, Some "ad")
      /\ length comp = 5.
Proof. intros (comp & last_tok & H & _). vm_compute in H. discriminate H. Qed.

(** C7, as the code has it. With the fixed command list, [complete] on
    the single token lo returns one candidate, the rest of load
    followed by a space, and no common string; nothing is printed and
    the session is unchanged. *)
Theorem complete_lo (fs : FileSystem) (st : Interactive) :
  complete fs "lo" st = Run (Ok (Some ["ad "], Some "lo", None)) [] st.
Proof. reflexivity. Qed.

(** The five raw loaders are the candidates of lr, with the common
    string aw. *)
Example complete_lr (fs : FileSystem) (st : Interactive) :
  complete fs "lr" st =
    Run (Ok (Some ["awarm "; "awmips "; "awmips64 "; "awx86 "; "awx64 "],
             Some "lr", Some "aw")) [] st.
Proof. reflexivity. Qed.

(** ** The monad laws that the proofs use *)

Lemma run_eta {A} (r : run A) : Run (value r) (printed r) (final r) = r.
Proof. now destruct r. Qed.

Lemma bind_lift_ok {A B} (a : A) (k : A -> M B) (st : Interactive) :
  bind (lift (Ok a)) k st = k a st.
Proof. unfold bind, lift. cbn [value final printed app]. apply run_eta. Qed.


Lemma bind_ret {A B} (a : A) (k : A -> M B) (st : Interactive) :
  bind (ret a) k st = k a st.
Proof. unfold bind, ret. cbn [value final printed app]. apply run_eta. Qed.

Lemma bind_get_state {B} (k : Interactive -> M B) (st : Interactive) :
  bind get_state k st = k st st.
Proof. unfold bind, get_state. cbn [value final printed app]. apply run_eta. Qed.

Lemma bind_modify {B} (f : Interactive -> Interactive) (k : unit -> M B)
    (st : Interactive) :
  bind (modify f) k st = k tt (f st).
Proof. unfold bind, modify. cbn [value final printed app]. apply run_eta. Qed.

Lemma bind_of_run {A B} (m : M A) (k : A -> M B) (st st' : Interactive) (a : A) :
  m st = Run (Ok a) [] st' -> bind m k st = k a st'.
Proof.
  intros H. unfold bind. rewrite H. cbn [value final printed app]. apply run_eta.
Qed.

(** Runs the leading steps of a computation that are pure, read the
    session or write it. *)
Ltac run_steps :=
  repeat first
    [ rewrite bind_lift_ok | rewrite bind_ret
    | rewrite bind_get_state | rewrite bind_modify ].

(** *** Completion of arguments *)

(** The entries of the command table, one by one. *)
Lemma COMMANDS_lookup (name : string) (c : Command) :
  COMMANDS !! name = Some c -> In (name, c) command_table.
Proof.
  intros H. apply list_elem_of_In.
  apply (elem_of_list_to_map_2 (M := gmap string)). exact H.
Qed.

(** The commands that have a completer. *)
Lemma commands_with_completer (name : string) :
  (exists c f, COMMANDS !! name = Some c /\ callback_complete c = Some f) <->
  In name ["load"; "lrawx86"; "lrawx64"; "lrawarm"; "lrawmips"; "lrawmips64";
           "x"; "da"; "db"; "dd"; "dw"; "dq"; "dump"; "sym"; "calls"].
Proof.
  split.
  - intros (c & f & Hc & Hf). apply COMMANDS_lookup in Hc.
    unfold command_table in Hc. simpl in Hc.
    repeat (destruct Hc as [Hc | Hc];
            [injection Hc as <- <-; first [discriminate Hf | simpl; tauto] |]).
    destruct Hc.
  - simpl. intros H.
    repeat (destruct H as [<- | H]; [eexists _, _; split; reflexivity |]).
    destruct H.
Qed.

(** C10. For every registered command that has a completer, a request
    for an argument position other than 1 yields the empty candidate
    list and touches nothing; so [complete] on a line whose current token
    is the second or a later argument of such a command returns no
    candidate, although da, db, dd, dw, dq and dump accept two
    arguments and sym three. *)
Theorem completers_only_first_argument (fs : FileSystem) (name : string)
    (c : Command) (f : completer) :
  COMMANDS !! name = Some c ->
  callback_complete c = Some f ->
  (forall tmp_line nth_arg last_tok st,
     nth_arg <> 1 ->
     run_complete fs f tmp_line nth_arg last_tok st = Run (Ok (Some [])) [] st) /\
  (forall line args last st,
     Shlex.split (line +:+ "_") = Ok (name :: args ++ [last]) ->
     args <> [] ->
     complete fs line st = Run (Ok (Some [], Some (PyStr.drop_last last), None)) [] st).
Proof.
  intros Hc Hf.
  assert (Hrun : forall tmp_line nth_arg last_tok st,
             nth_arg <> 1 ->
             run_complete fs f tmp_line nth_arg last_tok st = Run (Ok (Some [])) [] st).
  { intros tmp_line nth_arg last_tok st Hn.
    apply Nat.eqb_neq in Hn.
    destruct f; cbn [run_complete]; unfold run_complete_load, run_complete_x.
    - now rewrite Hn.
    - rewrite bind_get_state. now rewrite Hn. }
  split; [exact Hrun |].
  intros line args last st Hsplit Hargs.
  assert (Hlen : length (name :: args ++ [last]) - 1 = S (length args)).
  { cbn [length]. rewrite length_app. cbn [length]. lia. }
  assert (Hcands : complete_candidates fs line st =
                   Run (Ok (Some [], PyStr.drop_last last)) [] st).
  { unfold complete_candidates. rewrite Hsplit, bind_lift_ok, Hlen.
    replace (item (name :: args ++ [last]) (S (length args))) with (Ok last).
    2:{ unfold item. cbn [nth_error]. rewrite nth_error_app2 by lia.
        now rewrite Nat.sub_diag. }
    rewrite bind_lift_ok.
    replace (length (name :: args ++ [last]) =? 1) with false.
    2:{ symmetry. apply Nat.eqb_neq. lia. }
    erewrite bind_of_run; [reflexivity |].
    unfold try_except. cbn [item nth_error]. rewrite bind_lift_ok.
    unfold lookup_command. rewrite Hc, bind_lift_ok, Hf.
    rewrite Hrun by (destruct args; [congruence | cbn [length]; lia]).
    reflexivity. }
  unfold complete. erewrite bind_of_run by exact Hcands. reflexivity.
Qed.

(** The commands with a completer that accept more than one argument. *)
Example completer_arities :
  map (fun name => max_args <$> COMMANDS !! name) ["da"; "db"; "dd"; "dw"; "dq"; "dump"; "sym"]
  = [Some 2; Some 2; Some 2; Some 2; Some 2; Some 2; Some 3].
Proof. reflexivity. Qed.

Lemma completers_only_first_argument_witness :
  (forall tmp_line nth_arg last_tok st,
     nth_arg <> 1 ->
     run_complete no_files complete_x tmp_line nth_arg last_tok st = Run (Ok (Some [])) [] st) /\
  (forall line args last st,
     Shlex.split (line +:+ "_") = Ok ("sym" :: args ++ [last]) ->
     args <> [] ->
     complete no_files line st = Run (Ok (Some [], Some (PyStr.drop_last last), None)) [] st).
Proof.
  eapply (completers_only_first_argument no_files "sym"); reflexivity.
Defined.

Example complete_sym_second_argument :
  complete no_files "sym main 0x" (session_of eighty_binary) =
    Run (Ok (Some [], Some "0x", None)) [] (session_of eighty_binary).
Proof. reflexivity. Qed.

(** ** The dispatcher *)

Section dispatcher_facts.

Variable fs : FileSystem.
Variable collaborator : executor -> list string -> M unit.

(** [exec_command] is the decision of [dispatch], carried out. *)
Lemma exec_command_dispatch (line : string) (args : list string)
    (d : dispatch_result) (st : Interactive) :
  Shlex.split line = Ok args ->
  dispatch args = Ok d ->
  exec_command fs collaborator line st =
    match d with
    | Reject message => Run (Ok tt) [Out_error message] st
    | Invoke f args => run_exec fs collaborator f args st
    | Skip => Run (Ok tt) [] st
    end.
Proof.
  intros Hsplit Hd. unfold exec_command.
  rewrite Hsplit. run_steps. rewrite Hd. run_steps.
  now destruct d.
Qed.

(** C4 fails on the code. A line without tokens (empty, or blanks
    only) is not passed over in silence: [args[0]] raises
    [IndexError], which [exec_command] does not catch. The session is
    as before and nothing is printed. *)
Theorem exec_command_blank_raises (st : Interactive) :
  Shlex.split EmptyString = Ok [] /\
  exec_command fs collaborator EmptyString st = Run (Raise IndexError) [] st /\
  Shlex.split "   " = Ok [] /\
  exec_command fs collaborator "   " st = Run (Raise IndexError) [] st.
Proof. repeat split; reflexivity. Qed.

(** Every line without tokens ends the same way. *)
Lemma exec_command_no_token (line : string) (st : Interactive) :
  Shlex.split line = Ok [] ->
  exec_command fs collaborator line st = Run (Raise IndexError) [] st.
Proof. intros H. unfold exec_command. now rewrite H, bind_lift_ok. Qed.

(** C5. For a registered command [name] with [max_args c] as its
    limit: a line with more arguments than the limit is answered by
    the error "<name> takes max <N> args", no executor is called and
    the session is unchanged; a line with at most that many arguments
    is never answered by that error: its executor is called on the
    tokens, or nothing happens when the command has none. *)
Theorem max_args_enforced (line name : string) (args : list string)
    (c : Command) (st : Interactive) :
  Shlex.split line = Ok (name :: args) ->
  COMMANDS !! name = Some c ->
  (max_args c < length args ->
     let message := name +:+ " takes max " +:+ PyStr.of_nat (max_args c) +:+ " args" in
     dispatch (name :: args) = Ok (Reject message) /\
     exec_command fs collaborator line st = Run (Ok tt) [Out_error message] st) /\
  (length args <= max_args c ->
     dispatch (name :: args) =
       Ok (match callback_exec c with
           | Some f => Invoke f (name :: args)
           | None => Skip
           end) /\
     exec_command fs collaborator line st =
       match callback_exec c with
       | Some f => run_exec fs collaborator f (name :: args) st
       | None => Run (Ok tt) [] st
       end).
Proof.
  intros Hsplit Hc.
  assert (Hd : dispatch (name :: args) =
               if max_args c <? length args
               then Ok (Reject (name +:+ " takes max " +:+ PyStr.of_nat (max_args c) +:+ " args"))
               else Ok (match callback_exec c with
                        | Some f => Invoke f (name :: args)
                        | None => Skip
                        end)).
  { unfold dispatch, item. cbn [nth_error pybind]. rewrite Hc.
    cbn [length]. rewrite Nat.sub_succ, Nat.sub_0_r.
    destruct (max_args c <? length args); [reflexivity |].
    now destruct (callback_exec c). }
  split; intros Hlen.
  - apply Nat.ltb_lt in Hlen. rewrite Hlen in Hd. split; [exact Hd |].
    now rewrite (exec_command_dispatch _ _ _ _ Hsplit Hd).
  - apply Nat.ltb_ge in Hlen. rewrite Hlen in Hd. split; [exact Hd |].
    rewrite (exec_command_dispatch _ _ _ _ Hsplit Hd).
    now destruct (callback_exec c).
Qed.

End dispatcher_facts.

Lemma max_args_enforced_witness :
  (dispatch ["sym"; "a"; "0x1"; "b"; "c"] = Ok (Reject "sym takes max 3 args") /\
   exec_command no_files idle "sym a 0x1 b c" fresh_session =
     Run (Ok tt) [Out_error "sym takes max 3 args"] fresh_session) /\
  (dispatch ["sym"; "a"; "0x1"] = Ok (Invoke exec_sym ["sym"; "a"; "0x1"]) /\
   exec_command no_files idle "sym a 0x1" fresh_session =
     run_exec no_files idle exec_sym ["sym"; "a"; "0x1"] fresh_session).
Proof.
  split.
  - refine (proj1 (max_args_enforced no_files idle "sym a 0x1 b c" "sym"
                     ["a"; "0x1"; "b"; "c"] _ fresh_session eq_refl eq_refl) _).
    simpl. lia.
  - refine (proj2 (max_args_enforced no_files idle "sym a 0x1" "sym"
                     ["a"; "0x1"] _ fresh_session eq_refl eq_refl) _).
    simpl. lia.
Defined.

(** ** The symbol command *)

Section sym_facts.

Lemma get_binary_loaded (st : Interactive) (d : Disassembler) :
  dis (ctx st) = Some d -> get_binary st = Run (Ok (binary d)) [] st.
Proof. intros H. unfold get_binary. rewrite bind_get_state. now rewrite H. Qed.

(** [sym NAME ADDRESS] up to the check of the prefix 0x. *)
Lemma run_exec_sym_checks (name address : string) (st : Interactive)
    (d : Disassembler) :
  dis (ctx st) = Some d ->
  symbol_name name ->
  run_exec_sym ["sym"; name; address] st =
    if PyStr.startswith address "0x" then
      try_except
        (let* addr := lift (match PyInt.int16 address with
                            | Some a => Ok a
                            | None => Raise ValueError
                            end) in
         let* _ := modify (set_database_modified true) in
         let* b := get_binary in
         let* _ :=
           match PyDict.get (symbols b) name with
           | Some last =>
               match reverse_symbols b !! last with
               | Some _ =>
                   set_binary {| symbols := symbols b;
                                 reverse_symbols := delete last (reverse_symbols b) |}
               | None => raise KeyError
               end
           | None => ret tt
           end in
         let* b := get_binary in
         let* _ := set_binary {| symbols := PyDict.set (symbols b) name addr;
                                 reverse_symbols := reverse_symbols b |} in
         let* b := get_binary in
         set_binary {| symbols := symbols b;
                       reverse_symbols := <[addr := name]> (reverse_symbols b) |})
        (fun _ => error "there was an error when creating a symbol") st
    else Run (Ok tt) [Out_error "the address should starts with 0x"] st.
Proof.
  intros Hdis (c & Hc & Hbar). unfold run_exec_sym.
  rewrite bind_get_state, Hdis. cbn [length Nat.eqb item nth_error].
  rewrite bind_lift_ok. unfold char_at. rewrite Hc, bind_lift_ok.
  destruct (Ascii.eqb_spec c "|") as [-> | _]; [congruence |].
  cbn [Nat.ltb Nat.leb]. rewrite bind_lift_ok.
  now destruct (PyStr.startswith address "0x").
Qed.

(** [sym NAME ADDRESS] on a loaded binary, for a symbol name and an
    address with the prefix 0x. *)
Lemma run_exec_sym_define (name address : string) (st : Interactive)
    (d : Disassembler) :
  dis (ctx st) = Some d ->
  symbol_name name ->
  PyStr.startswith address "0x" = true ->
  run_exec_sym ["sym"; name; address] st =
    match PyInt.int16 address with
    | None =>
        Run (Ok tt) [Out_error "there was an error when creating a symbol"] st
    | Some addr =>
        match sym_tables name addr (binary d) with
        | Some b' => Run (Ok tt) [] (stored b' st)
        | None =>
            Run (Ok tt) [Out_error "there was an error when creating a symbol"]
                (set_database_modified true st)
        end
    end.
Proof.
  intros Hdis Hname Hstart.
  rewrite (run_exec_sym_checks name address st d Hdis Hname), Hstart.
  unfold try_except.
  destruct (PyInt.int16 address) as [addr|]; [| reflexivity].
  run_steps.
  erewrite bind_of_run by (apply get_binary_loaded; exact Hdis).
  unfold sym_tables.
  destruct (PyDict.get (symbols (binary d)) name) as [last|].
  - destruct (reverse_symbols (binary d) !! last) as [other|]; [| reflexivity].
    unfold set_binary at 1. run_steps.
    erewrite bind_of_run by (apply get_binary_loaded; reflexivity).
    unfold set_binary at 1. run_steps.
    erewrite bind_of_run by (apply get_binary_loaded; reflexivity).
    reflexivity.
  - rewrite bind_ret.
    erewrite bind_of_run by (apply get_binary_loaded; exact Hdis).
    unfold set_binary at 1. run_steps.
    erewrite bind_of_run by (apply get_binary_loaded; reflexivity).
    reflexivity.
Qed.


End sym_facts.

Section sym_command.

Variable fs : FileSystem.
Variable collaborator : executor -> list string -> M unit.

(** A line of three tokens that starts with sym reaches [__exec_sym]. *)
Lemma exec_command_sym (line name address : string) (st : Interactive) :
  Shlex.split line = Ok ["sym"; name; address] ->
  exec_command fs collaborator line st = run_exec_sym ["sym"; name; address] st.
Proof.
  intros Hsplit.
  now rewrite (exec_command_dispatch fs collaborator line _
                 (Invoke exec_sym ["sym"; name; address]) st Hsplit eq_refl).
Qed.


(** C9. When [sym NAME ADDRESS] rebinds a name that the symbol table
    already holds at [old] (whose reverse entry exists, as it does in
    every table the command built): the reverse entry of [old] is
    deleted and only then the new pair inserted. Afterwards NAME looks
    up to the new address, the new address looks up to NAME, every
    other name keeps its address, and the reverse table is the old one
    without [old] and with the new pair. When the new address is
    another one than [old], the reverse table has no entry for [old]
    afterwards, also when it had none before. *)
Theorem sym_redefinition_removes_old_reverse (line name address : string)
    (addr old : Z) (d : Disassembler) (st : Interactive) :
  Shlex.split line = Ok ["sym"; name; address] ->
  dis (ctx st) = Some d ->
  symbol_name name ->
  PyStr.startswith address "0x" = true ->
  PyInt.int16 address = Some addr ->
  PyDict.get (symbols (binary d)) name = Some old ->
  let b' := binary_of (final (exec_command fs collaborator line st)) in
  (is_Some (reverse_symbols (binary d) !! old) ->
     reverse_symbols b' = <[addr := name]> (delete old (reverse_symbols (binary d))) /\
     symbols b' = PyDict.set (symbols (binary d)) name addr /\
     PyDict.get (symbols b') name = Some addr /\
     (forall other, other <> name ->
        PyDict.get (symbols b') other = PyDict.get (symbols (binary d)) other) /\
     reverse_symbols b' !! addr = Some name /\
     (forall a, a <> addr -> a <> old ->
        reverse_symbols b' !! a = reverse_symbols (binary d) !! a)) /\
  (addr <> old -> reverse_symbols b' !! old = None).
Proof.
  intros Hsplit Hdis Hname Hstart Hint Hold b'. subst b'.
  rewrite (exec_command_sym line name address st Hsplit).
  rewrite (run_exec_sym_define name address st d Hdis Hname Hstart), Hint.
  unfold sym_tables. rewrite Hold.
  destruct (reverse_symbols (binary d) !! old) as [other|] eqn:Hrev.
  - unfold binary_of, stored.
    cbn [final ctx dis set_ctx set_dis binary reverse_symbols symbols].
    split.
    + intros _. repeat split.
      * apply dict_get_set_eq.
      * intros other' Hne. now apply dict_get_set_ne.
      * apply lookup_insert_eq.
      * intros a Ha Ho. rewrite lookup_insert_ne by congruence.
        apply lookup_delete_ne. congruence.
    + intros Hne. rewrite lookup_insert_ne by exact Hne. apply lookup_delete_eq.
  - unfold binary_of. cbn [final ctx set_database_modified]. rewrite Hdis.
    split; [intros [x Hx]; discriminate | intros _; exact Hrev].
Qed.

End sym_command.



Lemma sym_redefinition_removes_old_reverse_witness :
  let b' := binary_of (final (exec_command no_files idle "sym main 0x2"
                                (session_of one_symbol))) in
  (reverse_symbols b' = <[2%Z := "main"]> (delete 1%Z (reverse_symbols one_symbol)) /\
   symbols b' = PyDict.set (symbols one_symbol) "main" 2%Z /\
   PyDict.get (symbols b') "main" = Some 2%Z /\
   (forall other, other <> "main" ->
      PyDict.get (symbols b') other = PyDict.get (symbols one_symbol) other) /\
   reverse_symbols b' !! 2%Z = Some "main" /\
   (forall a, a <> 2%Z -> a <> 1%Z ->
      reverse_symbols b' !! a = reverse_symbols one_symbol !! a)) /\
  reverse_symbols b' !! 1%Z = None.
Proof.
  assert (Hname : symbol_name "main").
  { exists "m"%char. split; [reflexivity | discriminate]. }
  pose proof (sym_redefinition_removes_old_reverse no_files idle
                "sym main 0x2" "main" "0x2" 2%Z 1%Z {| binary := one_symbol |}
                (session_of one_symbol) eq_refl eq_refl Hname
                eq_refl eq_refl eq_refl) as H.
  cbv zeta in H. destruct H as [Htables Hgone].
  split.
  - apply Htables. exists "main". reflexivity.
  - apply Hgone. discriminate.
Defined.

(** *** The bijection between the two tables *)

(** The body of [sym] keeps the tables inverse to each other as long as
    the new address is not yet the address of another name. *)
Lemma sym_tables_bijective (name : string) (addr : Z) (b : Binary) :
  bijective b ->
  (forall other, reverse_symbols b !! addr = Some other -> other = name) ->
  exists b', sym_tables name addr b = Some b' /\ bijective b'.
Proof.
  intros Hbij Hfree. unfold bijective in Hbij. unfold sym_tables.
  destruct (PyDict.get (symbols b) name) as [last|] eqn:Hname.
  - apply Hbij in Hname as Hrev. rewrite Hrev. eexists. split; [reflexivity |].
    intros n a. cbn [symbols reverse_symbols].
    destruct (decide (name = n)) as [<- | Hn].
    + rewrite dict_get_set_eq. destruct (decide (addr = a)) as [<- | Ha].
      * rewrite lookup_insert_eq. tauto.
      * rewrite lookup_insert_ne by exact Ha. split; [congruence |].
        intros H. destruct (decide (last = a)) as [<- | Hl].
        -- rewrite lookup_delete_eq in H. discriminate.
        -- rewrite lookup_delete_ne in H by exact Hl.
           apply Hbij in H. congruence.
    + rewrite dict_get_set_ne by exact Hn. rewrite Hbij.
      destruct (decide (addr = a)) as [<- | Ha].
      * rewrite lookup_insert_eq. split; [| congruence].
        intros H. apply Hfree in H. congruence.
      * rewrite lookup_insert_ne by exact Ha.
        destruct (decide (last = a)) as [<- | Hl].
        -- rewrite lookup_delete_eq. split; [congruence | discriminate].
        -- now rewrite lookup_delete_ne.
  - eexists. split; [reflexivity |].
    intros n a. cbn [symbols reverse_symbols].
    destruct (decide (name = n)) as [<- | Hn].
    + rewrite dict_get_set_eq. destruct (decide (addr = a)) as [<- | Ha].
      * rewrite lookup_insert_eq. tauto.
      * rewrite lookup_insert_ne by exact Ha. split; [congruence |].
        intros H. apply Hbij in H. congruence.
    + rewrite dict_get_set_ne by exact Hn. rewrite Hbij.
      destruct (decide (addr = a)) as [<- | Ha].
      * rewrite lookup_insert_eq. split; [| congruence].
        intros H. apply Hfree in H. congruence.
      * now rewrite lookup_insert_ne.
Qed.

(** So a successful [sym NAME 0xADDR] preserves the bijection whenever
    the address is free or already that of [NAME]. *)
Lemma sym_preserves_bijection_free_address (name address : string) (addr : Z)
    (d : Disassembler) (st : Interactive) :
  dis (ctx st) = Some d ->
  symbol_name name ->
  PyStr.startswith address "0x" = true ->
  PyInt.int16 address = Some addr ->
  bijective (binary d) ->
  (forall other, reverse_symbols (binary d) !! addr = Some other -> other = name) ->
  printed (run_exec_sym ["sym"; name; address] st) = [] /\
  bijective (binary_of (final (run_exec_sym ["sym"; name; address] st))).
Proof.
  intros Hdis Hname Hstart Hint Hbij Hfree.
  rewrite (run_exec_sym_define name address st d Hdis Hname Hstart), Hint.
  destruct (sym_tables_bijective name addr (binary d) Hbij Hfree) as (b' & -> & Hb').
  split; [reflexivity | exact Hb'].
Qed.

(** C1 fails on the code. From the empty tables, which are a bijection,
    the two successful commands sym a 0x1 and sym b 0x1 leave both names
    at address 1 in the symbol table while the reverse table maps 1 to b
    only: the pair (a, 1) has no reverse entry that yields a. *)
Theorem sym_shared_address_breaks_bijection :
  let r := rl_loop no_files idle ["sym a 0x1"; "sym b 0x1"] fresh_session in
  bijective (binary_of fresh_session) /\
  value r = Ok tt /\ printed r = [] /\
  symbols (binary_of (final r)) = [("a", 1%Z); ("b", 1%Z)] /\
  reverse_symbols (binary_of (final r)) = {[ 1%Z := "b" ]} /\
  ~ bijective (binary_of (final r)).
Proof.
  split; [| split; [| split; [| split; [| split]]]].
  - intros name addr. cbn [binary_of fresh_session session_of ctx dis binary
                            symbols reverse_symbols PyDict.get].
    rewrite lookup_empty. split; discriminate.
  - vm_compute. reflexivity.
  - vm_compute. reflexivity.
  - vm_compute. reflexivity.
  - vm_compute. reflexivity.
  - intros Hbij. specialize (Hbij "a" 1%Z).
    assert (Hget : PyDict.get (symbols (binary_of (final
              (rl_loop no_files idle ["sym a 0x1"; "sym b 0x1"] fresh_session)))) "a"
            = Some 1%Z) by (vm_compute; reflexivity).
    apply Hbij in Hget. vm_compute in Hget. discriminate Hget.
Qed.

(** ** The exit guard *)

Section exit_guard.

Variable fs : FileSystem.
Variable collaborator : executor -> list string -> M unit.

(** One turn of the main loop: when [rl.loop()] returns, the loop is
    left exactly when [database_modified] is false; otherwise the
    warning is printed and the loop goes on. *)
Lemma main_loop_turn (lines : list string) (input : list (list string))
    (st : Interactive) :
  main_loop fs collaborator (lines :: input) st =
    let r := rl_loop fs collaborator lines st in
    match value r with
    | Raise e => Run (Raise e) (printed r) (final r)
    | Ok _ =>
        if database_modified (final r) then
          let r' := main_loop fs collaborator input (final r) in
          Run (value r') (printed r ++ unsaved_warning :: printed r') (final r')
        else Run (Ok Loop_break) (printed r) (final r)
    end.
Proof.
  cbn [main_loop]. unfold bind at 1.
  destruct (rl_loop fs collaborator lines st) as [[[]|e] out st']; cbn [value final printed].
  - rewrite bind_get_state.
    destruct (database_modified st'); cbn [negb].
    + unfold bind, print, say. cbn [value final printed app]. reflexivity.
    + unfold ret. cbn [value final printed]. now rewrite app_nil_r.
  - reflexivity.
Qed.

(** At the end of input the loop is left if and only if the flag is
    false. *)
Lemma end_of_input_guard (input : list (list string)) (st : Interactive) :
  (database_modified st = false ->
     main_loop fs collaborator ([] :: input) st = Run (Ok Loop_break) [] st) /\
  (database_modified st = true ->
     main_loop fs collaborator [[]] st = Run (Ok Loop_reentered) [unsaved_warning] st).
Proof.
  split; intros H; rewrite main_loop_turn; cbn [rl_loop ret value final printed];
    rewrite H; reflexivity.
Qed.

(** [exit] leaves at once, whatever the flag says. *)
Lemma exit_is_unconditional (lines : list string) (input : list (list string))
    (st : Interactive) :
  exec_command fs collaborator "exit" st = Run (Raise (SystemExit 0)) [] st /\
  main_loop fs collaborator (("exit" :: lines) :: input) st =
    Run (Raise (SystemExit 0)) [] st.
Proof.
  assert (H : exec_command fs collaborator "exit" st = Run (Raise (SystemExit 0)) [] st)
    by reflexivity.
  split; [exact H |].
  rewrite main_loop_turn. cbn [rl_loop]. unfold bind at 1. rewrite H. reflexivity.
Qed.

(** [__exec_save] on a loaded binary and a file that can be opened:
    the database is written, the confirmation printed and, last, the
    flag cleared. *)
Lemma run_exec_save_loaded (args : list string) (path : string)
    (d : Disassembler) (st : Interactive) :
  db_path (ctx st) = Some path ->
  writable fs path = true ->
  dis (ctx st) = Some d ->
  run_exec_save fs args st =
    Run (Ok tt) [Out_print ("database saved to " +:+ path)]
        (set_database_modified false
           (set_disk (<[path := Json_file {| db_symbols := symbols (binary d);
                                             db_history := history st |}]> (disk st)) st)).
Proof.
  intros Hpath Hw Hdis. unfold run_exec_save.
  rewrite bind_get_state, Hpath, Hw. cbn [negb]. rewrite bind_modify.
  erewrite bind_of_run by (apply get_binary_loaded; exact Hdis).
  rewrite bind_get_state, bind_modify.
  unfold bind, print, say, modify, set_disk.
  cbn [value final printed app ctx database_modified history disk].
  now rewrite insert_insert_eq.
Qed.

(** A read cycle of one line that returns: the line is run and then
    recorded in the history. *)
Lemma rl_loop_single (line : string) (out : list output) (st st1 : Interactive) :
  exec_command fs collaborator line st = Run (Ok tt) out st1 ->
  rl_loop fs collaborator [line] st =
    Run (Ok tt) out (set_history (history st1 ++ [line]) st1).
Proof.
  intros H. cbn [rl_loop]. unfold bind at 1. rewrite H.
  cbn [value final printed]. rewrite bind_modify. unfold ret.
  cbn [value final printed]. now rewrite app_nil_r.
Qed.

(** A [sym] that defines a symbol sets the flag. *)
Lemma sym_sets_database_modified (name address : string) (addr : Z)
    (d : Disassembler) (st : Interactive) :
  dis (ctx st) = Some d ->
  symbol_name name ->
  PyStr.startswith address "0x" = true ->
  PyInt.int16 address = Some addr ->
  database_modified (final (run_exec_sym ["sym"; name; address] st)) = true.
Proof.
  intros Hdis Hname Hstart Hint.
  rewrite (run_exec_sym_define name address st d Hdis Hname Hstart), Hint.
  now destruct (sym_tables name addr (binary d)).
Qed.

(** C2. The exit guard and its asymmetry. When a read cycle returns,
    the main loop is left exactly when [database_modified] is false;
    when it is true the warning is printed and the loop goes on. So
    after a [sym] that defines a symbol the end of input does not end
    the loop, and after a successful [save], which clears the flag, it
    does, whatever the flag was before. The command exit ends the run
    at once by [SystemExit], with the flag set or not. *)
Theorem exit_guard_asymmetry :
  (forall lines input st,
     value (rl_loop fs collaborator lines st) = Ok tt ->
     (database_modified (final (rl_loop fs collaborator lines st)) = false ->
        main_loop fs collaborator (lines :: input) st =
          Run (Ok Loop_break) (printed (rl_loop fs collaborator lines st))
              (final (rl_loop fs collaborator lines st))) /\
     (database_modified (final (rl_loop fs collaborator lines st)) = true ->
        main_loop fs collaborator (lines :: input) st =
          Run (value (main_loop fs collaborator input
                        (final (rl_loop fs collaborator lines st))))
              (printed (rl_loop fs collaborator lines st) ++
               unsaved_warning ::
               printed (main_loop fs collaborator input
                          (final (rl_loop fs collaborator lines st))))
              (final (main_loop fs collaborator input
                        (final (rl_loop fs collaborator lines st)))))) /\
  (forall line name address addr d st,
     Shlex.split line = Ok ["sym"; name; address] ->
     dis (ctx st) = Some d ->
     symbol_name name ->
     PyStr.startswith address "0x" = true ->
     PyInt.int16 address = Some addr ->
     value (rl_loop fs collaborator [line] st) = Ok tt /\
     database_modified (final (rl_loop fs collaborator [line] st)) = true /\
     main_loop fs collaborator [[line]] st =
       Run (Ok Loop_reentered)
           (printed (rl_loop fs collaborator [line] st) ++ [unsaved_warning])
           (final (rl_loop fs collaborator [line] st))) /\
  (forall line path d input st,
     Shlex.split line = Ok ["save"] ->
     db_path (ctx st) = Some path ->
     writable fs path = true ->
     dis (ctx st) = Some d ->
     database_modified (final (rl_loop fs collaborator [line] st)) = false /\
     main_loop fs collaborator ([line] :: input) st =
       Run (Ok Loop_break) [Out_print ("database saved to " +:+ path)]
           (final (rl_loop fs collaborator [line] st))) /\
  (forall lines input st,
     exec_command fs collaborator "exit" st = Run (Raise (SystemExit 0)) [] st /\
     main_loop fs collaborator (("exit" :: lines) :: input) st =
       Run (Raise (SystemExit 0)) [] st).
Proof.
  split; [| split; [| split]].
  - intros lines input st Hok. rewrite main_loop_turn. cbv zeta. rewrite Hok.
    split; intros ->; reflexivity.
  - intros line name address addr d st Hsplit Hdis Hname Hstart Hint.
    assert (Hrun : exists out st1,
              exec_command fs collaborator line st = Run (Ok tt) out st1 /\
              database_modified st1 = true).
    { rewrite (exec_command_sym fs collaborator line name address st Hsplit).
      rewrite (run_exec_sym_define name address st d Hdis Hname Hstart), Hint.
      destruct (sym_tables name addr (binary d)); eauto. }
    destruct Hrun as (out & st1 & Hrun & Hst1).
    rewrite main_loop_turn. cbv zeta.
    rewrite (rl_loop_single line out st st1 Hrun).
    cbn [value final printed set_history database_modified main_loop ret].
    rewrite Hst1. repeat split.
  - intros line path d input st Hsplit Hpath Hw Hdis.
    assert (Hrun : exec_command fs collaborator line st =
                   run_exec_save fs ["save"] st).
    { now rewrite (exec_command_dispatch fs collaborator line _
                     (Invoke exec_save ["save"]) st Hsplit eq_refl). }
    rewrite (run_exec_save_loaded ["save"] path d st Hpath Hw Hdis) in Hrun.
    rewrite main_loop_turn. cbv zeta.
    rewrite (rl_loop_single line _ st _ Hrun).
    cbn [value final printed set_history set_database_modified database_modified].
    split; reflexivity.
  - intros lines input st. apply exit_is_unconditional.
Qed.

End exit_guard.

Lemma exit_guard_asymmetry_witness :
  (database_modified (final (rl_loop no_files idle ["sym main 0x401000"] fresh_session))
     = true /\
   value (main_loop no_files idle [["sym main 0x401000"]] fresh_session)
     = Ok Loop_reentered) /\
  (database_modified (final (rl_loop no_files idle ["save"]
                               (set_database_modified true one_session))) = false /\
   value (main_loop no_files idle [["save"]; ["sym a 0x1"]]
            (set_database_modified true one_session)) = Ok Loop_break) /\
  main_loop no_files idle [["exit"; "save"]; []] (set_database_modified true one_session) =
    Run (Raise (SystemExit 0)) [] (set_database_modified true one_session).
Proof.
  destruct (exit_guard_asymmetry no_files idle) as (_ & Hsym & Hsave & Hexit).
  assert (Hname : symbol_name "main").
  { exists "m"%char. split; [reflexivity | discriminate]. }
  split; [| split].
  - destruct (Hsym "sym main 0x401000" "main" "0x401000" 4198400%Z
                {| binary := binary_of fresh_session |} fresh_session
                eq_refl eq_refl Hname eq_refl eq_refl) as (_ & Hflag & Hloop).
    split; [exact Hflag | now rewrite Hloop].
  - destruct (Hsave "save" "a.out.db" {| binary := one_symbol |} [["sym a 0x1"]]
                (set_database_modified true one_session)
                eq_refl eq_refl eq_refl eq_refl) as (Hflag & Hloop).
    split; [exact Hflag | now rewrite Hloop].
  - apply Hexit.
Defined.

(** The whole course: a definition, an end of input that is refused, a
    save, and the end of input that ends the loop; the lines of a later
    cycle are not read. *)
Example exit_guard_course :
  let r := main_loop no_files idle
             [["sym main 0x401000"]; ["save"]; ["sym other 0x1"]] fresh_session in
  value r = Ok Loop_break /\
  printed r = [unsaved_warning; Out_print "database saved to a.out.db"] /\
  database_modified (final r) = false /\
  symbols (binary_of (final r)) = [("main", 4198400%Z)].
Proof. vm_compute. repeat split. Qed.

(** * Further properties of the shell *)

(** ** More facts about strings *)

Section more_string_facts.

Import PyStr.

Lemma drop_length_app (p t : string) : drop (String.length p) (p +:+ t) = t.
Proof. induction p as [|c p IH]; simpl; [now destruct t | exact IH]. Qed.

Lemma is_prefix_app_drop (p s : string) :
  is_prefix p s -> p +:+ drop (String.length p) s = s.
Proof. intros [t ->]. now rewrite drop_length_app. Qed.

Lemma is_prefix_antisym (a b : string) : is_prefix a b -> is_prefix b a -> a = b.
Proof.
  intros [t Ht] [u Hu]. rewrite Ht, string_app_assoc in Hu.
  rewrite <- (string_app_nil_r a) in Hu at 1.
  apply string_app_inv_head in Hu.
  destruct t; [now rewrite string_app_nil_r in Ht | discriminate Hu].
Qed.

Lemma string_app_inv_tail (a b t : string) : a +:+ t = b +:+ t -> a = b.
Proof.
  revert b. induction a as [|x a IH]; intros [|y b] H; simpl in H.
  - reflexivity.
  - apply (f_equal String.length) in H. simpl in H.
    rewrite string_length_app in H. lia.
  - apply (f_equal String.length) in H. simpl in H.
    rewrite string_length_app in H. lia.
  - injection H as -> H. f_equal. now apply IH.
Qed.

Lemma is_prefix_app_r (p s t : string) : is_prefix p s -> is_prefix p (s +:+ t).
Proof. intros [u ->]. exists (u +:+ t). now rewrite string_app_assoc. Qed.

Lemma backslash_spaces_app (a b : string) :
  backslash_spaces (a +:+ b) = backslash_spaces a +:+ backslash_spaces b.
Proof.
  induction a as [|c a IH]; simpl; [reflexivity |].
  destruct (Ascii.eqb c " "); simpl; now rewrite IH.
Qed.

Lemma backslash_spaces_no_space (s : string) :
  no_space s = true -> backslash_spaces s = s.
Proof.
  induction s as [|c s IH]; simpl; [reflexivity |].
  destruct (Ascii.eqb c " "); simpl; [discriminate |].
  intros H. now rewrite IH.
Qed.

End more_string_facts.

(** ** The tokenizer on a line that ends with the sentinel *)

Section tokenizer_facts.

Import Shlex.

Lemma emit_pending (quoted : bool) (token : string) :
  PyStr.nonempty token || quoted = true -> emit quoted token = Some token.
Proof. unfold emit. destruct quoted, token; simpl; congruence. Qed.

Lemma emit_push (quoted : bool) (token : string) (c : ascii) :
  emit quoted (push token c) = Some (push token c).
Proof. apply emit_pending. unfold push. destruct token; reflexivity. Qed.

(** The tokenizer raises nothing but [ValueError]. *)
Lemma tokens_raise (input : string) :
  forall state esc quoted token acc e,
    tokens input state esc quoted token acc = Raise e -> e = ValueError.
Proof.
  induction input as [|c input IH]; intros state esc quoted token acc e H.
  - destruct state; simpl in H; try discriminate H; try congruence;
      destruct (emit quoted token); discriminate H.
  - destruct state; cbn [tokens] in H.
    + discriminate H.
    + destruct (is_whitespace c).
      * destruct (PyStr.nonempty token || quoted); [| eauto].
        destruct (emit quoted token); [eauto | discriminate H].
      * destruct (is_escape c); [eauto |]. destruct (is_quote c); eauto.
    + destruct (is_whitespace c).
      * destruct (PyStr.nonempty token || quoted); [| eauto].
        destruct (emit quoted token); [eauto | discriminate H].
      * destruct (is_quote c); [eauto |]. destruct (is_escape c); eauto.
    + destruct (Ascii.eqb c q); [eauto |].
      destruct (is_escape c && is_escapedquote q); eauto.
    + eauto.
Qed.

(** When the input ends with the sentinel, a successful run yields at
    least one token, and the last one ends with the sentinel. *)
Lemma tokens_sentinel (input : string) :
  forall state esc quoted token acc l,
    reachable state esc ->
    tokens (input +:+ "_") state esc quoted token acc = Ok l ->
    exists l' t, l = l' ++ [t +:+ "_"].
Proof.
  induction input as [|c input IH]; intros state esc quoted token acc l [Hs He] H.
  - change (EmptyString +:+ "_") with (String "_" EmptyString) in H.
    destruct state; cbn [tokens] in H; try contradiction.
    + cbn [is_whitespace is_quote is_escape Ascii.eqb Bool.eqb orb tokens] in H.
      rewrite (emit_pending quoted "_" eq_refl) in H.
      injection H as <-. now exists acc, EmptyString.
    + cbn [is_whitespace is_quote is_escape Ascii.eqb Bool.eqb orb] in H.
      rewrite emit_push in H. injection H as <-. now exists acc, token.
    + assert (Hq : Ascii.eqb "_" q = false).
      { destruct (Ascii.eqb_spec "_" q) as [<- |]; [discriminate Hs | reflexivity]. }
      rewrite Hq in H. cbn in H. discriminate H.
    + destruct esc as [| |q]; cbn [resume tokens] in H.
      * rewrite emit_push in H. injection H as <-. now exists acc, token.
      * rewrite emit_push in H. injection H as <-. now exists acc, token.
      * discriminate H.
  - change (String c input +:+ "_") with (String c (input +:+ "_")) in H.
    destruct state; cbn [tokens] in H; try contradiction.
    + destruct (is_whitespace c).
      * destruct (PyStr.nonempty token || quoted) eqn:Hp.
        -- rewrite (emit_pending _ _ Hp) in H. eapply IH; [| exact H]. now split.
        -- eapply IH; [| exact H]. now split.
      * destruct (is_escape c); [eapply IH; [| exact H]; now split |].
        destruct (is_quote c) eqn:Hq; eapply IH; try exact H; now split.
    + destruct (is_whitespace c).
      * destruct (PyStr.nonempty token || quoted) eqn:Hp.
        -- rewrite (emit_pending _ _ Hp) in H. eapply IH; [| exact H]. now split.
        -- eapply IH; [| exact H]. now split.
      * destruct (is_quote c) eqn:Hq; [eapply IH; [| exact H]; now split |].
        destruct (is_escape c); eapply IH; try exact H; now split.
    + destruct (Ascii.eqb c q); [eapply IH; [| exact H]; now split |].
      destruct (is_escape c && is_escapedquote q); eapply IH; try exact H; now split.
    + eapply IH; [| exact H]. destruct esc; now split.
Qed.

Lemma split_sentinel (line : string) (l : list string) :
  split (line +:+ "_") = Ok l -> exists l' t, l = l' ++ [t +:+ "_"].
Proof. apply tokens_sentinel. now split. Qed.

Lemma drop_last_sentinel (t : string) : PyStr.drop_last (t +:+ "_") = t.
Proof.
  induction t as [|c t IH]; [reflexivity |].
  change (String c t +:+ "_") with (String c (t +:+ "_")).
  cbn [PyStr.drop_last]. rewrite IH. now destruct t.
Qed.

End tokenizer_facts.

(** ** What [complete] returns, raises and leaves alone *)

Section complete_outcome.

Variable fs : FileSystem.

(** A completer returns a list or the overflow mark without printing
    or writing, unless the directory listing fails. *)
Lemma run_complete_outcome (f : completer) (tmp_line : string) (nth_arg : nat)
    (last_tok : string) (st : Interactive) :
  (exists comp, run_complete fs f tmp_line nth_arg last_tok st = Run (Ok comp) [] st) \/
  (run_complete fs f tmp_line nth_arg last_tok st = Run (Raise ValueError) [] st /\
   exists d, listdir fs d = Invalid_path) \/
  (run_complete fs f tmp_line nth_arg last_tok st = Run (Raise OSError) [] st /\
   exists d, listdir fs d = Listing_error).
Proof.
  destruct f; cbn [run_complete]; unfold run_complete_load, run_complete_x.
  - destruct (nth_arg =? 1); cbn [negb]; [| left; eexists; reflexivity].
    match goal with |- context [listdir fs ?d] => destruct (listdir fs d) eqn:Hls end.
    + left. eexists. reflexivity.
    + left. eexists. reflexivity.
    + right. left. split; [reflexivity | eauto].
    + right. right. split; [reflexivity | eauto].
  - rewrite bind_get_state. left.
    destruct (nth_arg =? 1); cbn [negb]; [| eexists; reflexivity].
    destruct (dis (ctx st)); eexists; reflexivity.
Qed.

(** The candidates for a line of one token: a command name. *)
Lemma complete_candidates_name (line last : string) (st : Interactive) :
  Shlex.split (line +:+ "_") = Ok [last] ->
  complete_candidates fs line st =
    Run (Ok (complete_command_name (PyStr.drop_last last), PyStr.drop_last last)) [] st.
Proof.
  intros Hsplit. unfold complete_candidates. rewrite Hsplit. run_steps.
  cbn [length Nat.sub item nth_error Nat.eqb]. run_steps. reflexivity.
Qed.

(** The candidates for a line of several tokens: an argument. *)
Lemma complete_candidates_argument (line first last : string) (args : list string)
    (st : Interactive) :
  Shlex.split (line +:+ "_") = Ok (first :: args ++ [last]) ->
  complete_candidates fs line st =
    match COMMANDS !! first with
    | Some c =>
        match callback_complete c with
        | Some f =>
            match value (run_complete fs f (PyStr.drop_last (line +:+ "_"))
                           (S (length args)) (PyStr.drop_last last) st) with
            | Ok comp => Run (Ok (comp, PyStr.drop_last last)) [] st
            | Raise e => Run (Raise e) [] st
            end
        | None => Run (Ok (Some [], PyStr.drop_last last)) [] st
        end
    | None => Run (Ok (Some [], PyStr.drop_last last)) [] st
    end.
Proof.
  intros Hsplit.
  assert (Hlen : length (first :: args ++ [last]) - 1 = S (length args)).
  { cbn [length]. rewrite length_app. cbn [length]. lia. }
  unfold complete_candidates. rewrite Hsplit, bind_lift_ok, Hlen.
  replace (item (first :: args ++ [last]) (S (length args))) with (Ok last).
  2:{ unfold item. cbn [nth_error]. rewrite nth_error_app2 by lia.
      now rewrite Nat.sub_diag. }
  rewrite bind_lift_ok.
  replace (length (first :: args ++ [last]) =? 1) with false.
  2:{ symmetry. apply Nat.eqb_neq. lia. }
  match goal with
  | |- context [try_except ?b ?h] => set (body := b); set (handler := h)
  end.
  assert (Htry : try_except body handler st =
            match COMMANDS !! first with
            | Some c =>
                match callback_complete c with
                | Some f =>
                    match value (run_complete fs f (PyStr.drop_last (line +:+ "_"))
                                   (S (length args)) (PyStr.drop_last last) st) with
                    | Ok comp => Run (Ok comp) [] st
                    | Raise e => Run (Raise e) [] st
                    end
                | None => Run (Ok (Some [])) [] st
                end
            | None => Run (Ok (Some [])) [] st
            end).
  { unfold try_except, body, handler. cbn [item nth_error]. rewrite bind_lift_ok.
    unfold lookup_command.
    destruct (COMMANDS !! first) as [c|]; [| reflexivity].
    rewrite bind_lift_ok.
    destruct (callback_complete c) as [f|]; [| reflexivity].
    destruct (run_complete_outcome f (PyStr.drop_last (line +:+ "_")) (S (length args))
                (PyStr.drop_last last) st) as [[comp ->] | [[-> _] | [-> _]]];
      reflexivity. }
  unfold bind at 1. rewrite Htry.
  destruct (COMMANDS !! first) as [c|]; [| reflexivity].
  destruct (callback_complete c) as [f|]; [| reflexivity].
  now destruct (value (run_complete fs f (PyStr.drop_last (line +:+ "_"))
                         (S (length args)) (PyStr.drop_last last) st)).
Qed.

(** The ways in which the candidate phase of [complete] ends. *)
Lemma complete_candidates_outcome (line : string) (st : Interactive) :
  ((Shlex.split (line +:+ "_") = Raise ValueError \/
    exists d, listdir fs d = Invalid_path) /\
   complete_candidates fs line st = Run (Raise ValueError) [] st) \/
  ((exists d, listdir fs d = Listing_error) /\
   complete_candidates fs line st = Run (Raise OSError) [] st) \/
  (exists comp last_tok, complete_candidates fs line st = Run (Ok (comp, last_tok)) [] st).
Proof.
  destruct (Shlex.split (line +:+ "_")) as [l|e] eqn:Hsplit.
  - destruct (split_sentinel line l Hsplit) as (l' & t & ->).
    destruct l' as [|first args].
    + right. right. rewrite (complete_candidates_name line _ st Hsplit). eauto.
    + rewrite (complete_candidates_argument line first _ args st Hsplit).
      destruct (COMMANDS !! first) as [c|]; [| right; right; eauto].
      destruct (callback_complete c) as [f|]; [| right; right; eauto].
      destruct (run_complete_outcome f (PyStr.drop_last (line +:+ "_")) (S (length args))
                  (PyStr.drop_last (t +:+ "_")) st)
        as [[comp ->] | [[-> Hd] | [-> Hd]]].
      * right. right. cbn [value]. eauto.
      * left. cbn [value]. split; [right; exact Hd | reflexivity].
      * right. left. cbn [value]. split; [exact Hd | reflexivity].
  - left. apply tokens_raise in Hsplit as He. subst e. split; [now left |].
    unfold complete_candidates. now rewrite Hsplit.
Qed.

(** The ways in which [complete] ends: in every one the session is the
    one it started from. *)
Lemma complete_outcome (line : string) (st : Interactive) :
  ((Shlex.split (line +:+ "_") = Raise ValueError \/
    exists d, listdir fs d = Invalid_path) /\
   complete fs line st = Run (Raise ValueError) [] st) \/
  ((exists d, listdir fs d = Listing_error) /\
   complete fs line st = Run (Raise OSError) [] st) \/
  complete fs line st =
    Run (Ok (None, None, None)) [Out_print (String "010" "too much possibilities")] st \/
  (exists comp last_tok common, complete fs line st = Run (Ok (Some comp, last_tok, common)) [] st).
Proof.
  unfold complete.
  destruct (complete_candidates_outcome line st)
    as [[Hs Hc] | [[Hd Hc] | (comp & last_tok & Hc)]].
  - left. split; [exact Hs |]. unfold bind. now rewrite Hc.
  - right. left. split; [exact Hd |]. unfold bind. now rewrite Hc.
  - right. right. erewrite bind_of_run by exact Hc.
    destruct comp as [comp|]; [| left; reflexivity].
    right. destruct (length comp <=? 1) eqn:Hlen; [eexists _, _, _; reflexivity |].
    destruct (common_string_spec comp) as (common & Hcommon & _).
    { intros ->. discriminate Hlen. }
    rewrite Hcommon, bind_lift_ok. eexists _, _, _. reflexivity.
Qed.

(** X1. [complete] raises nothing but [ValueError], when the line with
    the sentinel does not tokenize or [os.listdir] refuses the path (an
    embedded null character), and [OSError], when a directory cannot be
    listed: no [IndexError] from the last token or from the common
    string, no [KeyError] from the command table. *)
Theorem complete_raises_only (line : string) (st : Interactive) (e : exn) :
  value (complete fs line st) = Raise e ->
  (e = ValueError /\
   (Shlex.split (line +:+ "_") = Raise ValueError \/
    exists d, listdir fs d = Invalid_path)) \/
  (e = OSError /\ exists d, listdir fs d = Listing_error).
Proof.
  intros H.
  destruct (complete_outcome line st)
    as [[Hs Hc] | [[Hd Hc] | [Hc | (comp & last_tok & common & Hc)]]];
    rewrite Hc in H; cbn [value] in H; try discriminate H; injection H as <-; auto.
Qed.

(** X2. [complete] never writes to the session, whatever the line, and
    prints nothing but the notice of too many candidates. *)
Theorem complete_leaves_session (line : string) (st : Interactive) :
  final (complete fs line st) = st /\
  (printed (complete fs line st) = [] \/
   printed (complete fs line st) =
     [Out_print (String "010" "too much possibilities")]).
Proof.
  destruct (complete_outcome line st)
    as [[Hs Hc] | [[Hd Hc] | [Hc | (comp & last_tok & common & Hc)]]];
    rewrite Hc; cbn [final printed]; auto.
Qed.

End complete_outcome.

Lemma complete_raises_only_witness :
  (ValueError = ValueError /\
   (Shlex.split ("load 'abc" +:+ "_") = Raise ValueError \/
    exists d, listdir no_files d = Invalid_path)) \/
  (ValueError = OSError /\ exists d, listdir no_files d = Listing_error).
Proof.
  apply (complete_raises_only no_files "load 'abc" fresh_session ValueError).
  reflexivity.
Defined.

(** ** What the candidates are *)

Section candidate_facts.

Import PyStr.

(** Below the cap, the scan returns the renderings of the kept items,
    in the order of the items. *)
Lemma scan_candidates_below_cap {A} (keep : A -> bool) (render : A -> string)
    (items : list A) :
  length (List.filter keep items) < MAX_PRINT_COMPLETE ->
  scan_candidates keep render items [] 0 = Some (map render (List.filter keep items)).
Proof.
  intros H. rewrite scan_candidates_from_start.
  apply Nat.leb_gt in H. now rewrite H.
Qed.

Lemma COMMANDS_ALPHA_registered :
  Forall (fun cmd => is_Some (COMMANDS !! cmd)) COMMANDS_ALPHA.
Proof. repeat constructor; vm_compute; eauto. Qed.

(** X3. Completion of a command name is sound and complete: it never
    overflows, a string is a candidate exactly when, appended to the
    token typed so far, it gives a name of [COMMANDS_ALPHA] followed by
    a space, for a name that starts with the token; and every name
    completed this way is a key of [COMMANDS], so the dispatcher knows
    it. *)
Theorem command_name_candidates (last_tok : string) :
  exists comp,
    complete_command_name last_tok = Some comp /\
    (forall c, In c comp <->
       exists cmd, In cmd COMMANDS_ALPHA /\ is_prefix last_tok cmd /\
                   last_tok +:+ c = cmd +:+ " ") /\
    (forall c cmd, In c comp -> last_tok +:+ c = cmd +:+ " " ->
       is_Some (COMMANDS !! cmd)).
Proof.
  eexists. split.
  { unfold complete_command_name. apply scan_candidates_below_cap.
    eapply Nat.le_lt_trans; [apply filter_length_le |].
    unfold MAX_PRINT_COMPLETE. cbn [COMMANDS_ALPHA length]. lia. }
  assert (Hiff : forall c,
    In c (map (fun cmd => drop (String.length last_tok) cmd +:+ " ")
              (List.filter (fun cmd => startswith cmd last_tok) COMMANDS_ALPHA)) <->
    exists cmd, In cmd COMMANDS_ALPHA /\ is_prefix last_tok cmd /\
                last_tok +:+ c = cmd +:+ " ").
  { intros c. rewrite in_map_iff. split.
    - intros (cmd & <- & Hin). apply filter_In in Hin as [Hin Hsw].
      apply startswith_is_prefix in Hsw. exists cmd. repeat split; auto.
      rewrite <- string_app_assoc. now rewrite is_prefix_app_drop.
    - intros (cmd & Hin & Hpre & Heq). exists cmd. split.
      + rewrite <- (is_prefix_app_drop _ _ Hpre) in Heq at 1.
        rewrite string_app_assoc in Heq. apply string_app_inv_head in Heq. auto.
      + apply filter_In. split; [exact Hin | now apply startswith_is_prefix]. }
  split; [exact Hiff |].
  intros c cmd Hc Heq. apply Hiff in Hc as (cmd' & Hin & _ & Heq').
  assert (cmd' = cmd) by (rewrite Heq in Heq'; now apply string_app_inv_tail in Heq').
  subst cmd'. pose proof COMMANDS_ALPHA_registered as Hreg.
  rewrite Forall_forall in Hreg. apply Hreg. now apply list_elem_of_In.
Qed.

(** X4. Completion of a symbol is sound and complete below the cap: a
    string is a candidate exactly when, appended to the token typed so
    far, it gives a name of the symbol table followed by a space, for a
    name that starts with the token. *)
Theorem symbol_candidates (b : Binary) (tmp_line : string) (nth_arg : nat)
    (last_tok : string) :
  length (List.filter (fun sym => startswith sym last_tok)
                      (PyDict.keys (symbols b))) < 80 ->
  exists comp,
    find_symbol b tmp_line nth_arg last_tok = Some comp /\
    forall c, In c comp <->
      exists sym addr, PyDict.get (symbols b) sym = Some addr /\
                       is_prefix last_tok sym /\ last_tok +:+ c = sym +:+ " ".
Proof.
  intros Hcap. eexists. split.
  { unfold find_symbol. now apply scan_candidates_below_cap. }
  intros c. rewrite in_map_iff. split.
  - intros (sym & <- & Hin). apply filter_In in Hin as [Hin Hsw].
    apply startswith_is_prefix in Hsw. apply dict_keys_get in Hin as [addr Hget].
    exists sym, addr. repeat split; auto.
    apply is_prefix_app_drop. now apply is_prefix_app_r.
  - intros (sym & addr & Hget & Hpre & Heq). exists sym. split.
    + rewrite <- Heq. apply drop_length_app.
    + apply filter_In. split; [| now apply startswith_is_prefix].
      apply dict_keys_get. eauto.
Qed.

End candidate_facts.

Lemma symbol_candidates_witness :
  exists comp,
    find_symbol eighty_binary "x s7" 1 "s7" = Some comp /\
    forall c, In c comp <->
      exists sym addr, PyDict.get (symbols eighty_binary) sym = Some addr /\
                       PyStr.is_prefix "s7" sym /\ "s7" +:+ c = sym +:+ " ".
Proof.
  apply (symbol_candidates eighty_binary "x s7" 1 "s7").
  vm_compute. repeat constructor.
Defined.

Section path_candidates.

Import PyStr.

Variable fs : FileSystem.

(** X5. Completion of a path, below the cap and for a base name typed
    without a space: a string is a candidate exactly when, appended to
    the base name, it gives the name of an entry of the listed
    directory that starts with the base name, with its spaces escaped
    and followed by a slash for a directory and by a space otherwise.
    Nothing is printed and the session is unchanged. *)
Theorem path_candidates (tmp_line last_tok : string) (names : list string)
    (st : Interactive) :
  listdir fs (listed_directory last_tok) = Entries names ->
  length (List.filter (fun f => startswith f (OsPath.basename last_tok)) names) < 80 ->
  no_space (OsPath.basename last_tok) = true ->
  exists comp,
    run_complete_load fs tmp_line 1 last_tok st = Run (Ok (Some comp)) [] st /\
    forall c, In c comp <->
      exists f, In f names /\ is_prefix (OsPath.basename last_tok) f /\
                OsPath.basename last_tok +:+ c =
                  backslash_spaces f +:+
                  (if isdir fs (OsPath.join (listed_directory last_tok) f)
                   then "/" else " ").
Proof.
  intros Hls Hcap Hns. eexists. split.
  { unfold run_complete_load. cbn [Nat.eqb negb]. fold (listed_directory last_tok).
    rewrite Hls. unfold ret. now rewrite scan_candidates_below_cap. }
  set (base := OsPath.basename last_tok) in *.
  assert (Hescaped : forall f, is_prefix base f -> is_prefix base (backslash_spaces f)).
  { intros f [t ->]. rewrite backslash_spaces_app, (backslash_spaces_no_space _ Hns).
    apply is_prefix_app_l. }
  assert (Hrender : forall f x, is_prefix base f ->
            base +:+ drop (String.length base) (backslash_spaces f +:+ x)
            = backslash_spaces f +:+ x).
  { intros f x Hpre. apply is_prefix_app_drop, is_prefix_app_r, Hescaped, Hpre. }
  intros c. rewrite in_map_iff. split.
  - intros (f & <- & Hin). apply filter_In in Hin as [Hin Hsw].
    apply startswith_is_prefix in Hsw. exists f. repeat split; auto.
    destruct (isdir fs (OsPath.join (listed_directory last_tok) f)); now apply Hrender.
  - intros (f & Hin & Hpre & Heq). exists f. split.
    + destruct (isdir fs (OsPath.join (listed_directory last_tok) f));
        rewrite <- Heq; apply drop_length_app.
    + apply filter_In. split; [exact Hin | now apply startswith_is_prefix].
Qed.

End path_candidates.

Lemma path_candidates_witness :
  exists comp,
    run_complete_load sample_files "load m" 1 "m" fresh_session =
      Run (Ok (Some comp)) [] fresh_session /\
    forall c, In c comp <->
      exists f, In f ["my file"; "main.c"; "src"] /\
                PyStr.is_prefix (OsPath.basename "m") f /\
                OsPath.basename "m" +:+ c =
                  PyStr.backslash_spaces f +:+
                  (if isdir sample_files (OsPath.join (listed_directory "m") f)
                   then "/" else " ").
Proof.
  apply (path_candidates sample_files "load m" "m" ["my file"; "main.c"; "src"]
           fresh_session).
  - reflexivity.
  - vm_compute. repeat constructor.
  - reflexivity.
Defined.

(** The candidates of the witness, and of a directory. *)
Example path_candidates_sample :
  value (complete sample_files "load m" fresh_session) =
    Ok (Some ["y\ file "; "ain.c "], Some "m", Some EmptyString) /\
  value (complete sample_files "load s" fresh_session) =
    Ok (Some ["rc/"], Some "s", None).
Proof. split; reflexivity. Qed.

(** ** The common string as a function of the set of candidates *)

(** X6. The common string depends on the set of candidates only: two
    non-empty lists with the same members, in whatever order and with
    whatever repetitions, have the same common string. *)
Theorem common_string_same_members (comp1 comp2 : list string) :
  comp1 <> [] ->
  (forall w, In w comp1 <-> In w comp2) ->
  common_string comp1 = common_string comp2.
Proof.
  intros Hne Hsame.
  assert (Hne2 : comp2 <> []).
  { destruct comp1 as [|w comp1]; [congruence |].
    intros ->. apply (Hsame w). now left. }
  destruct (common_string_spec comp1 Hne) as (c1 & -> & Hpre1 & Hmax1).
  destruct (common_string_spec comp2 Hne2) as (c2 & -> & Hpre2 & Hmax2).
  f_equal. apply is_prefix_antisym.
  - apply Hmax2. intros w Hw. apply Hpre1, Hsame, Hw.
  - apply Hmax1. intros w Hw. apply Hpre2, Hsame, Hw.
Qed.

Lemma common_string_same_members_witness :
  common_string ["rawx86 "; "rawarm "; "rawx64 "] =
  common_string ["rawarm "; "rawx64 "; "rawx86 "; "rawarm "].
Proof.
  apply common_string_same_members.
  - discriminate.
  - intros w. simpl. tauto.
Defined.

(** ** Lines that have nothing to complete *)

Section nothing_to_complete.

Variable fs : FileSystem.

(** X7. Completion of an argument yields the empty list, without an
    exception, a message or a write, in three cases: the first token is
    no registered command (the [KeyError] is caught), the command has no
    completer, or the completer is the symbol completer and no binary is
    loaded. *)
Theorem complete_argument_empty (line first last : string) (args : list string)
    (st : Interactive) :
  Shlex.split (line +:+ "_") = Ok (first :: args ++ [last]) ->
  COMMANDS !! first = None \/
  (exists c, COMMANDS !! first = Some c /\ callback_complete c = None) \/
  (exists c, COMMANDS !! first = Some c /\ callback_complete c = Some complete_x /\
             dis (ctx st) = None) ->
  complete fs line st = Run (Ok (Some [], Some (PyStr.drop_last last), None)) [] st.
Proof.
  intros Hsplit Hcase.
  assert (Hcands : complete_candidates fs line st =
                   Run (Ok (Some [], PyStr.drop_last last)) [] st).
  { rewrite (complete_candidates_argument fs line first last args st Hsplit).
    destruct Hcase as [-> | [(c & -> & ->) | (c & -> & -> & Hdis)]]; try reflexivity.
    cbn [run_complete]. unfold run_complete_x. rewrite bind_get_state, Hdis.
    now destruct (S (length args) =? 1). }
  unfold complete. erewrite bind_of_run by exact Hcands. reflexivity.
Qed.

End nothing_to_complete.

Lemma complete_argument_empty_witness :
  complete no_files "quit no" fresh_session =
    Run (Ok (Some [], Some "no", None)) [] fresh_session /\
  complete no_files "help me" fresh_session =
    Run (Ok (Some [], Some "me", None)) [] fresh_session /\
  complete no_files "x ma" unloaded_session =
    Run (Ok (Some [], Some "ma", None)) [] unloaded_session.
Proof.
  split; [| split].
  - apply (complete_argument_empty no_files "quit no" "quit" "no_" [] fresh_session eq_refl).
    left. reflexivity.
  - apply (complete_argument_empty no_files "help me" "help" "me_" [] fresh_session eq_refl).
    right. left. eexists. split; reflexivity.
  - apply (complete_argument_empty no_files "x ma" "x" "ma_" [] unloaded_session eq_refl).
    right. right. eexists. repeat split; reflexivity.
Defined.

Example path_candidate_after_space :
  Shlex.split ("load my\ f" +:+ "_") = Ok ["load"; "my f_"] /\
  value (complete sample_files "load my\ f" fresh_session) =
    Ok (Some ["file "], Some "my f", None).
Proof. split; reflexivity. Qed.

(** ** More on the dispatcher *)

Section dispatcher_errors.

Variable fs : FileSystem.
Variable collaborator : executor -> list string -> M unit.

(** X8. A line whose first token is no key of [COMMANDS] is answered by
    the error "unknown command", whatever its arguments; no executor
    runs and the session is unchanged. *)
Theorem unknown_command (line name : string) (args : list string) (st : Interactive) :
  Shlex.split line = Ok (name :: args) ->
  COMMANDS !! name = None ->
  dispatch (name :: args) = Ok (Reject "unknown command") /\
  exec_command fs collaborator line st = Run (Ok tt) [Out_error "unknown command"] st.
Proof.
  intros Hsplit Hnone.
  assert (Hd : dispatch (name :: args) = Ok (Reject "unknown command")).
  { unfold dispatch, item. cbn [nth_error pybind]. now rewrite Hnone. }
  split; [exact Hd |].
  now rewrite (exec_command_dispatch fs collaborator line _ _ st Hsplit Hd).
Qed.

(** X9. The display commands are switches: each call flips its option
    and says what the option has become, and two calls in a row give
    back the session as it was. *)
Theorem display_commands_toggle (st : Interactive) :
  let r1 := exec_command fs collaborator "display.print_section" st in
  let r2 := exec_command fs collaborator "display.print_section" (final r1) in
  let c1 := exec_command fs collaborator "display.print_comments" st in
  let c2 := exec_command fs collaborator "display.print_comments" (final c1) in
  (sectionsname (ctx (final r1)) = negb (sectionsname (ctx st)) /\
   printed r1 = [Out_print (if sectionsname (ctx st) then "now it's off" else "now it's on")] /\
   comments (ctx (final r1)) = comments (ctx st) /\
   final r2 = st) /\
  (comments (ctx (final c1)) = negb (comments (ctx st)) /\
   printed c1 = [Out_print (if comments (ctx st) then "now it's off" else "now it's on")] /\
   sectionsname (ctx (final c1)) = sectionsname (ctx st) /\
   final c2 = st).
Proof.
  destruct st as [[fn dbp d sn cm] dm h dk].
  destruct sn, cm; repeat split; reflexivity.
Qed.

End dispatcher_errors.

Lemma unknown_command_witness :
  dispatch ["quit"; "now"] = Ok (Reject "unknown command") /\
  exec_command no_files idle "quit now" fresh_session =
    Run (Ok tt) [Out_error "unknown command"] fresh_session.
Proof.
  apply (unknown_command no_files idle "quit now" "quit" ["now"] fresh_session);
    reflexivity.
Defined.

(** ** More on the symbol command *)

Section dict_order.

Context {K V : Type} `{EqDecision K}.

(** An assignment keeps the place of a present key and appends a new
    one. *)
Lemma dict_keys_set (d : list (K * V)) (k : K) (v : V) :
  PyDict.keys (PyDict.set d k v) =
    match PyDict.get d k with
    | Some _ => PyDict.keys d
    | None => PyDict.keys d ++ [k]
    end.
Proof.
  induction d as [|[k' v'] d IH]; simpl; [reflexivity |].
  destruct (decide (k' = k)) as [-> | Hne]; simpl; [reflexivity |].
  rewrite IH. now destruct (PyDict.get d k).
Qed.

End dict_order.

Section sym_more.

Lemma COMMANDS_sym_entry :
  COMMANDS !! "sym" =
    Some (Build_Command 3 (Some exec_sym) (Some complete_x)
            ["[SYMBOL 0xXXXX] [| FILTER]";
             "Print all symbols or set a new symbol.";
             "You can filter symbols by searching the word FILTER."]).
Proof. reflexivity. Qed.

Lemma dispatch_sym (rest : list string) :
  dispatch ("sym" :: rest) =
    if 3 <? length rest then Ok (Reject "sym takes max 3 args")
    else Ok (Invoke exec_sym ("sym" :: rest)).
Proof.
  unfold dispatch, item. cbn [nth_error pybind]. rewrite COMMANDS_sym_entry.
  cbn [max_args callback_exec length]. rewrite Nat.sub_succ, Nat.sub_0_r.
  now destruct (3 <? length rest).
Qed.

(** [sym] writes to the session on one path only, the definition of a
    symbol; there it sets the flag and, unless the deletion fails,
    stores the new tables. *)
Lemma run_exec_sym_writes (rest : list string) (st : Interactive) :
  final (run_exec_sym ("sym" :: rest) st) = st \/
  exists name address addr d,
    rest = [name; address] /\ dis (ctx st) = Some d /\ symbol_name name /\
    PyStr.startswith address "0x" = true /\ PyInt.int16 address = Some addr /\
    match sym_tables name addr (binary d) with
    | Some b' => run_exec_sym ("sym" :: rest) st = Run (Ok tt) [] (stored b' st)
    | None =>
        run_exec_sym ("sym" :: rest) st =
          Run (Ok tt) [Out_error "there was an error when creating a symbol"]
              (set_database_modified true st)
    end.
Proof.
  destruct (dis (ctx st)) as [d|] eqn:Hdis.
  2:{ left. unfold run_exec_sym. now rewrite bind_get_state, Hdis. }
  destruct rest as [|name rest].
  { left. unfold run_exec_sym. now rewrite bind_get_state, Hdis. }
  destruct (String.get 0 name) as [c|] eqn:Hc.
  2:{ left. unfold run_exec_sym. rewrite bind_get_state, Hdis.
      cbn [length Nat.eqb item nth_error]. rewrite bind_lift_ok.
      unfold char_at. now rewrite Hc. }
  destruct rest as [|address [|x rest]].
  - (* sym NAME *)
    left. unfold run_exec_sym. rewrite bind_get_state, Hdis.
    cbn [length Nat.eqb item nth_error]. rewrite bind_lift_ok.
    unfold char_at. rewrite Hc, bind_lift_ok.
    now destruct (Ascii.eqb c "|").
  - (* sym NAME ADDRESS *)
    destruct (Ascii.eqb_spec c "|") as [-> | Hbar].
    { left. unfold run_exec_sym. rewrite bind_get_state, Hdis.
      cbn [length Nat.eqb item nth_error]. rewrite bind_lift_ok.
      unfold char_at. rewrite Hc, bind_lift_ok.
      cbn [Ascii.eqb Bool.eqb Nat.ltb Nat.leb orb]. now rewrite bind_lift_ok. }
    assert (Hname : symbol_name name) by (now exists c).
    destruct (PyStr.startswith address "0x") eqn:Hstart.
    2:{ left. rewrite (run_exec_sym_checks name address st d Hdis Hname).
        now rewrite Hstart. }
    rewrite (run_exec_sym_define name address st d Hdis Hname Hstart).
    destruct (PyInt.int16 address) as [addr|] eqn:Hint; [| now left].
    right. exists name, address, addr, d. repeat split; auto.
    now destruct (sym_tables name addr (binary d)).
  - (* sym NAME ADDRESS and more *)
    left. unfold run_exec_sym. rewrite bind_get_state, Hdis.
    cbn [length Nat.eqb item nth_error]. rewrite bind_lift_ok.
    unfold char_at. rewrite Hc, bind_lift_ok.
    cbn [Nat.eqb Nat.ltb Nat.leb orb].
    now destruct (Ascii.eqb c "|").
Qed.

End sym_more.

Section sym_properties.

Variable fs : FileSystem.
Variable collaborator : executor -> list string -> M unit.

(** A line that starts with sym and has at most three arguments
    reaches [__exec_sym]; a longer one is refused. *)
Lemma exec_command_sym_line (line : string) (rest : list string) (st : Interactive) :
  Shlex.split line = Ok ("sym" :: rest) ->
  exec_command fs collaborator line st =
    if 3 <? length rest then Run (Ok tt) [Out_error "sym takes max 3 args"] st
    else run_exec_sym ("sym" :: rest) st.
Proof.
  intros Hsplit. pose proof (dispatch_sym rest) as Hd.
  destruct (3 <? length rest);
    now rewrite (exec_command_dispatch fs collaborator line _ _ st Hsplit Hd).
Qed.

(** X10. A definition can be read back: after [sym NAME 0xADDR] on a
    loaded binary whose reverse table knows the previous address of
    NAME, if any, nothing is printed, the flag is set, NAME maps to ADDR,
    ADDR maps back to NAME, the other names keep their addresses, and
    the order of the names is kept, with a new NAME at the end. *)
Theorem sym_define_lookup (line name address : string) (addr : Z)
    (d : Disassembler) (st : Interactive) :
  Shlex.split line = Ok ["sym"; name; address] ->
  dis (ctx st) = Some d ->
  symbol_name name ->
  PyStr.startswith address "0x" = true ->
  PyInt.int16 address = Some addr ->
  (forall old, PyDict.get (symbols (binary d)) name = Some old ->
               is_Some (reverse_symbols (binary d) !! old)) ->
  let r := exec_command fs collaborator line st in
  let b' := binary_of (final r) in
  value r = Ok tt /\ printed r = [] /\
  database_modified (final r) = true /\
  PyDict.get (symbols b') name = Some addr /\
  reverse_symbols b' !! addr = Some name /\
  (forall other, other <> name ->
     PyDict.get (symbols b') other = PyDict.get (symbols (binary d)) other) /\
  PyDict.keys (symbols b') =
    match PyDict.get (symbols (binary d)) name with
    | Some _ => PyDict.keys (symbols (binary d))
    | None => PyDict.keys (symbols (binary d)) ++ [name]
    end.
Proof.
  intros Hsplit Hdis Hname Hstart Hint Hrev r b'. subst r b'.
  rewrite (exec_command_sym_line line _ st Hsplit). cbn [length Nat.ltb Nat.leb].
  rewrite (run_exec_sym_define name address st d Hdis Hname Hstart), Hint.
  assert (Htables : exists rev,
            sym_tables name addr (binary d) =
              Some {| symbols := PyDict.set (symbols (binary d)) name addr;
                      reverse_symbols := <[addr := name]> rev |}).
  { unfold sym_tables.
    destruct (PyDict.get (symbols (binary d)) name) as [old|] eqn:Hold; [| eauto].
    destruct (Hrev old eq_refl) as [x ->]. eauto. }
  destruct Htables as [rev ->].
  unfold binary_of, stored.
  cbn [value printed final ctx dis set_ctx set_dis set_database_modified
       database_modified binary symbols reverse_symbols].
  repeat split.
  - apply dict_get_set_eq.
  - apply lookup_insert_eq.
  - intros other Hne. apply dict_get_set_ne. congruence.
  - apply dict_keys_set.
Qed.

(** X11. When the symbol table holds NAME at an address that the
    reverse table does not know, [sym NAME 0xADDR] fails half way: the
    error is reported and both tables stay as they were, but the flag
    [database_modified] has already been set. *)
Theorem sym_stale_entry_sets_flag (line name address : string) (addr old : Z)
    (d : Disassembler) (st : Interactive) :
  Shlex.split line = Ok ["sym"; name; address] ->
  dis (ctx st) = Some d ->
  symbol_name name ->
  PyStr.startswith address "0x" = true ->
  PyInt.int16 address = Some addr ->
  PyDict.get (symbols (binary d)) name = Some old ->
  reverse_symbols (binary d) !! old = None ->
  exec_command fs collaborator line st =
    Run (Ok tt) [Out_error "there was an error when creating a symbol"]
        (set_database_modified true st).
Proof.
  intros Hsplit Hdis Hname Hstart Hint Hold Hrev.
  rewrite (exec_command_sym_line line _ st Hsplit). cbn [length Nat.ltb Nat.leb].
  rewrite (run_exec_sym_define name address st d Hdis Hname Hstart), Hint.
  unfold sym_tables. now rewrite Hold, Hrev.
Qed.

(** X12. [sym] keeps to the symbol tables and the flag: whatever its
    arguments, the history, the files, the file names and the display
    options are as before and a flag that was set stays set; and it
    writes at all only when it defines a symbol, that is for two
    arguments, a symbol name and an address that starts with 0x and is
    a hexadecimal number. *)
Theorem sym_frame (line : string) (rest : list string) (st : Interactive) :
  Shlex.split line = Ok ("sym" :: rest) ->
  let st' := final (exec_command fs collaborator line st) in
  (history st' = history st /\ disk st' = disk st /\
   filename (ctx st') = filename (ctx st) /\ db_path (ctx st') = db_path (ctx st) /\
   sectionsname (ctx st') = sectionsname (ctx st) /\
   comments (ctx st') = comments (ctx st) /\
   (database_modified st = true -> database_modified st' = true)) /\
  (st' = st \/
   exists name address,
     rest = [name; address] /\ symbol_name name /\
     PyStr.startswith address "0x" = true /\ is_Some (PyInt.int16 address) /\
     database_modified st' = true).
Proof.
  intros Hsplit st'. subst st'.
  rewrite (exec_command_sym_line line rest st Hsplit).
  destruct (3 <? length rest); [cbn [final]; split; [repeat split; auto | now left] |].
  destruct (run_exec_sym_writes rest st)
    as [-> | (name & address & addr & d & -> & Hdis & Hname & Hstart & Hint & Hrun)].
  { split; [repeat split; auto | now left]. }
  destruct (sym_tables name addr (binary d)) as [b'|]; rewrite Hrun; cbn [final].
  - split; [repeat split; reflexivity |].
    right. exists name, address. repeat split; eauto.
  - split; [repeat split; reflexivity |].
    right. exists name, address. repeat split; eauto.
Qed.

End sym_properties.

Lemma sym_define_lookup_witness :
  let r := exec_command no_files idle "sym main 0x401000" fresh_session in
  let b' := binary_of (final r) in
  value r = Ok tt /\ printed r = [] /\
  database_modified (final r) = true /\
  PyDict.get (symbols b') "main" = Some 4198400%Z /\
  reverse_symbols b' !! 4198400%Z = Some "main" /\
  (forall other, other <> "main" ->
     PyDict.get (symbols b') other = PyDict.get (symbols (binary_of fresh_session)) other) /\
  PyDict.keys (symbols b') = ["main"].
Proof.
  assert (Hname : symbol_name "main").
  { exists "m"%char. split; [reflexivity | discriminate]. }
  apply (sym_define_lookup no_files idle "sym main 0x401000" "main" "0x401000"
           4198400%Z {| binary := binary_of fresh_session |} fresh_session
           eq_refl eq_refl Hname eq_refl eq_refl).
  intros old Hold. discriminate Hold.
Defined.

(** The session that the commands sym a 0x1, sym b 0x1 and sym a 0x2
    leave: b is still at address 1, which the reverse table has lost. *)
Lemma sym_stale_entry_sets_flag_witness :
  let st := final (rl_loop no_files idle ["sym a 0x1"; "sym b 0x1"; "sym a 0x2"]
                     fresh_session) in
  PyDict.get (symbols (binary_of st)) "b" = Some 1%Z /\
  reverse_symbols (binary_of st) !! 1%Z = None /\
  exec_command no_files idle "sym b 0x3" st =
    Run (Ok tt) [Out_error "there was an error when creating a symbol"]
        (set_database_modified true st).
Proof.
  assert (Hname : symbol_name "b").
  { exists "b"%char. split; [reflexivity | discriminate]. }
  cbv zeta. split; [vm_compute; reflexivity |]. split; [vm_compute; reflexivity |].
  eapply (sym_stale_entry_sets_flag no_files idle "sym b 0x3" "b" "0x3" 3%Z 1%Z);
    try reflexivity; try exact Hname; vm_compute; reflexivity.
Defined.

Lemma sym_frame_witness :
  let st' := final (exec_command no_files idle "sym | main" one_session) in
  (history st' = history one_session /\ disk st' = disk one_session /\
   filename (ctx st') = filename (ctx one_session) /\
   db_path (ctx st') = db_path (ctx one_session) /\
   sectionsname (ctx st') = sectionsname (ctx one_session) /\
   comments (ctx st') = comments (ctx one_session) /\
   (database_modified one_session = true -> database_modified st' = true)) /\
  (st' = one_session \/
   exists name address,
     ["|"; "main"] = [name; address] /\ symbol_name name /\
     PyStr.startswith address "0x" = true /\ is_Some (PyInt.int16 address) /\
     database_modified st' = true).
Proof.
  apply (sym_frame no_files idle "sym | main" ["|"; "main"] one_session). reflexivity.
Defined.

(** ** The addresses that [sym] accepts *)

Section address_facts.

Import PyInt.

Lemma digit_value_nonneg (c : ascii) (v : Z) : digit_value c = Some v -> (0 <= v)%Z.
Proof.
  unfold digit_value. intros H.
  repeat match type of H with
         | (if ?b then _ else _) = _ => destruct b
         end; try discriminate H; injection H as <-; lia.
Qed.

Lemma scan_nonneg (s : string) :
  forall prev digits acc v n rest,
    (0 <= acc)%Z -> scan s prev digits acc = Some (v, n, rest) -> (0 <= v)%Z.
Proof.
  induction s as [|c s IH]; intros prev digits acc v n rest Hacc H; cbn [scan] in H.
  - destruct prev; [discriminate H | injection H as <- _ _; exact Hacc].
  - destruct (Ascii.eqb c "_").
    + destruct prev; [discriminate H | eauto].
    + destruct (digit_value c) as [d|] eqn:Hd.
      * apply digit_value_nonneg in Hd.
        destruct (d <? 16)%Z.
        -- eapply IH; [| exact H]. lia.
        -- destruct prev; [discriminate H | injection H as <- _ _; exact Hacc].
      * destruct prev; [discriminate H | injection H as <- _ _; exact Hacc].
Qed.

(** The guard against a leading underscore lets through what the scan
    returns, or refuses. *)
Lemma underscore_guard {A} (s : string) (k : option A) (a : A) :
  match s with
  | String "_" _ => None
  | _ => k
  end = Some a -> k = Some a.
Proof.
  destruct s as [|c s]; [auto |].
  destruct c as [[] [] [] [] [] [] [] []]; intros H; first [exact H | discriminate H].
Qed.

(** X13. An address that passes the test of the prefix 0x and the
    conversion is never negative: after the prefix no sign is read. *)
Theorem sym_address_nonnegative (address : string) (a : Z) :
  PyStr.startswith address "0x" = true ->
  int16 address = Some a ->
  (0 <= a)%Z.
Proof.
  intros Hstart Hint.
  destruct address as [|c0 address]; [discriminate Hstart |].
  cbn [PyStr.startswith] in Hstart.
  destruct (Ascii.eqb_spec "0" c0) as [<- |]; [| discriminate Hstart].
  destruct address as [|c1 rest]; [discriminate Hstart |].
  cbn [PyStr.startswith] in Hstart.
  destruct (Ascii.eqb_spec "x" c1) as [<- |]; [| discriminate Hstart].
  clear Hstart.
  unfold int16 in Hint. cbn [lstrip is_space nat_of_ascii] in Hint.
  cbn in Hint.
  apply underscore_guard in Hint.
  match type of Hint with
  | match scan ?s false 0 0%Z with _ => _ end = _ =>
      destruct (scan s false 0 0%Z) as [[[v n] r]|] eqn:Hscan
  end; [| discriminate Hint].
  destruct ((n =? 0) || negb (all_space r)); [discriminate Hint |].
  injection Hint as <-. eapply scan_nonneg; [| exact Hscan]. lia.
Qed.

End address_facts.

Lemma sym_address_nonnegative_witness :
  PyInt.int16 "0x401000" = Some 4198400%Z /\ (0 <= 4198400)%Z.
Proof.
  split; [reflexivity |].
  apply (sym_address_nonnegative "0x401000" 4198400%Z); reflexivity.
Defined.

(** ** More on save and on the exit guard *)

Section save_properties.

Variable fs : FileSystem.

(** X14. A save on a loaded binary writes the current symbol table and
    history to the file at [db_path], confirms it with one line and
    clears the flag [database_modified]; it changes nothing else: the
    other files, the context and the history are as before. *)
Theorem save_writes_database (args : list string) (path : string)
    (d : Disassembler) (st : Interactive) :
  db_path (ctx st) = Some path ->
  writable fs path = true ->
  dis (ctx st) = Some d ->
  let r := run_exec_save fs args st in
  value r = Ok tt /\
  printed r = [Out_print ("database saved to " +:+ path)] /\
  disk (final r) !! path =
    Some (Json_file {| db_symbols := symbols (binary d); db_history := history st |}) /\
  (forall other, other <> path -> disk (final r) !! other = disk st !! other) /\
  database_modified (final r) = false /\
  ctx (final r) = ctx st /\
  history (final r) = history st.
Proof.
  intros Hpath Hw Hdis r. subst r.
  rewrite (run_exec_save_loaded fs args path d st Hpath Hw Hdis).
  cbn [value printed final set_database_modified set_disk disk ctx history
       database_modified].
  repeat split.
  - apply lookup_insert_eq.
  - intros other Hne. apply lookup_insert_ne. congruence.
Qed.


End save_properties.

Lemma save_writes_database_witness :
  let r := run_exec_save no_files ["save"] (set_database_modified true one_session) in
  value r = Ok tt /\
  printed r = [Out_print "database saved to a.out.db"] /\
  disk (final r) !! "a.out.db" =
    Some (Json_file {| db_symbols := [("main", 1%Z)]; db_history := [] |}) /\
  (forall other, other <> "a.out.db" ->
     disk (final r) !! other = disk (set_database_modified true one_session) !! other) /\
  database_modified (final r) = false /\
  ctx (final r) = ctx (set_database_modified true one_session) /\
  history (final r) = history (set_database_modified true one_session).
Proof.
  apply (save_writes_database no_files ["save"] "a.out.db" {| binary := one_symbol |}
           (set_database_modified true one_session)); reflexivity.
Defined.

Section flag_writers.

Variable fs : FileSystem.
Variable collaborator : executor -> list string -> M unit.

(** The executors outside this file are handed [ctx], not the shell
    object: they do not write its flag. *)
Hypothesis collaborator_keeps_flag :
  forall f args st,
    database_modified (final (collaborator f args st)) = database_modified st.





End flag_writers.


Section exit_command.

Variable fs : FileSystem.
Variable collaborator : executor -> list string -> M unit.

(** X19. A line that consists of the token exit raises [SystemExit]
    with status 0 whatever the session, its flag included: nothing is
    printed, the lines typed after it are not run and the main loop
    does not get to its test of the flag. *)
Theorem exit_raises_system_exit (line : string) (lines : list string)
    (input : list (list string)) (st : Interactive) :
  Shlex.split line = Ok ["exit"] ->
  exec_command fs collaborator line st = Run (Raise (SystemExit 0)) [] st /\
  rl_loop fs collaborator (line :: lines) st = Run (Raise (SystemExit 0)) [] st /\
  main_loop fs collaborator ((line :: lines) :: input) st =
    Run (Raise (SystemExit 0)) [] st.
Proof.
  intros Hsplit.
  assert (H : exec_command fs collaborator line st = Run (Raise (SystemExit 0)) [] st).
  { now rewrite (exec_command_dispatch fs collaborator line _
                   (Invoke exec_exit ["exit"]) st Hsplit eq_refl). }
  assert (Hloop : rl_loop fs collaborator (line :: lines) st =
                  Run (Raise (SystemExit 0)) [] st).
  { cbn [rl_loop]. unfold bind at 1. now rewrite H. }
  repeat split; [exact H | exact Hloop |].
  rewrite main_loop_turn. now rewrite Hloop.
Qed.

End exit_command.

Lemma exit_raises_system_exit_witness :
  exec_command no_files idle " 'exit' " (set_database_modified true one_session) =
    Run (Raise (SystemExit 0)) [] (set_database_modified true one_session) /\
  rl_loop no_files idle [" 'exit' "; "save"] (set_database_modified true one_session) =
    Run (Raise (SystemExit 0)) [] (set_database_modified true one_session) /\
  main_loop no_files idle [[" 'exit' "; "save"]; []] (set_database_modified true one_session) =
    Run (Raise (SystemExit 0)) [] (set_database_modified true one_session).
Proof.
  apply (exit_raises_system_exit no_files idle " 'exit' " ["save"] [[]]
           (set_database_modified true one_session)).
  reflexivity.
Defined.

(** ** Lines that do not tokenize *)

Section tokenize_error.

Variable fs : FileSystem.
Variable collaborator : executor -> list string -> M unit.

(** X17. A line that the tokenizer refuses (an open quote, a trailing
    backslash) makes [exec_command] raise [ValueError]: the exception is
    not caught, no message is printed, no command is looked up and the
    session is unchanged. *)
Theorem exec_command_tokenize_error (line : string) (e : exn) (st : Interactive) :
  Shlex.split line = Raise e ->
  e = ValueError /\
  exec_command fs collaborator line st = Run (Raise ValueError) [] st.
Proof.
  intros Hsplit. apply tokens_raise in Hsplit as He. subst e.
  split; [reflexivity |]. unfold exec_command. now rewrite Hsplit.
Qed.

End tokenize_error.

Lemma exec_command_tokenize_error_witness :
  ValueError = ValueError /\
  exec_command no_files idle "load 'my file" fresh_session =
    Run (Raise ValueError) [] fresh_session.
Proof.
  apply (exec_command_tokenize_error no_files idle "load 'my file" ValueError fresh_session).
  reflexivity.
Defined.
